(** * Crates.io backend of Perceval: a shallow embedding

    This development models [perceval/backends/mozilla/crates.py]: the
    [Crates] backend (item classifier, summary fetcher, incremental crate
    aggregator) and its [CratesClient] (resource accessors and the paginated
    page fetcher), and proves properties of them.

    Python values are a small dynamic universe [pyval] (what [json.loads]
    returns, plus floats and datetimes); dictionaries are [gmap string pyval].
    Exceptions are values of [exn]; generators are run to exhaustion and
    leave a trace of events: every HTTP request that was issued and every
    value that was yielded, in the order in which they happened.

    The collaborators that live outside the repository ([json.loads],
    [str], [urijoin], [str_to_datetime], [datetime_to_utc],
    [datetime_utcnow], [Backend.fetch], [HttpClient.fetch] and the registry
    behind it) are the fields of the class [Externals].  During one run the
    registry answers a request by a function of the request alone, as a
    mocked registry or an archive replay does; the clock is the only state.
    Logging is not modelled. *)

From stdpp Require Import base gmap strings list pretty.
From Stdlib Require Import ZArith Lia Ascii.

Local Open Scope string_scope.
Local Open Scope list_scope.
Local Open Scope Z_scope.

(** ** Exceptions *)

Inductive exn :=
| HTTPError (text : string)      (* requests.exceptions.HTTPError, with e.response.text *)
| KeyError (key : string)
| TypeError
| JSONDecodeError
| InvalidDateError
| OtherError (name : string).

(** ** Datetimes

    A [datetime.datetime]: its wall-clock reading in microseconds counted
    from 1970-01-01T00:00:00, and its UTC offset in microseconds when it is
    aware ([None] for a naive one). *)

Record datetime := mk_datetime { dt_wall : Z; dt_utcoffset : option Z }.

(** The instant an aware datetime denotes, in microseconds since the epoch
    (a naive one is read as UTC). *)
Definition dt_instant (d : datetime) : Z :=
  dt_wall d - default 0 (dt_utcoffset d).

(** [a < b] on datetimes: aware ones are compared by instant, naive ones by
    wall clock, and mixing them raises [TypeError]. *)
Definition dt_lt (a b : datetime) : exn + bool :=
  match dt_utcoffset a, dt_utcoffset b with
  | Some oa, Some ob => inr (dt_wall a - oa <? dt_wall b - ob)
  | None, None => inr (dt_wall a <? dt_wall b)
  | _, _ => inl TypeError
  end.

Definition dt_aware (d : datetime) : Prop := is_Some (dt_utcoffset d).

(** ** Python values *)

#[local] Set Warnings "-register-all".

Section Values.

(** Python's [float] is kept abstract. *)
Context {F : Type}.

Inductive pyval :=
| PNone
| PBool (b : bool)
| PInt (z : Z)
| PFloat (f : F)
| PStr (s : string)
| PList (l : list pyval)
| PDict (d : gmap string pyval)
| PDatetime (t : datetime).

(** What [HttpClient.fetch(url, payload=payload)] is called with. *)
Record request := mk_request {
  req_url : string;
  req_payload : option (gmap string pyval)
}.

(** What a run leaves behind: the requests sent to the registry and the
    values handed to the consumer by [yield]. *)
Inductive event :=
| Request (r : request)
| Emit (v : pyval).

End Values.

Arguments pyval : clear implicits.
Arguments request : clear implicits.
Arguments event : clear implicits.

(** ** Collaborators outside the repository *)

Class Externals := {
  pyfloat : Type;
  float_truthy : pyfloat → bool;                 (* bool(f) *)
  int_ge_float : Z → pyfloat → bool;             (* n >= f *)
  py_str : pyval pyfloat → string;               (* str(v) *)
  json_loads : string → exn + pyval pyfloat;     (* json.loads *)
  urijoin : list (pyval pyfloat) → string;       (* grimoirelab_toolkit.uris *)
  str_to_datetime : pyval pyfloat → exn + datetime;
  datetime_to_utc : pyval pyfloat → exn + datetime;
  timestamp : datetime → pyfloat;                (* datetime.timestamp() *)
  DEFAULT_DATETIME : datetime;                   (* perceval.utils *)
  world : Type;                                  (* the clock *)
  datetime_utcnow : world → datetime * world;
  http_fetch : request pyfloat → exn + string;   (* HttpClient.fetch(..).text *)
  items : Type;                                  (* what Backend.fetch returns *)
  Backend_fetch : string → gmap string (pyval pyfloat) → items
}.

Abbreviation value := (pyval pyfloat).

Section ValueOps.

Context `{Externals}.

(** [bool(v)], as [if not v] evaluates it. *)
Definition truthy (v : value) : bool :=
  match v with
  | PNone => false
  | PBool b => b
  | PInt z => negb (z =? 0)
  | PFloat f => float_truthy f
  | PStr s => negb (String.eqb s "")
  | PList l => negb (Nat.eqb (length l) 0)
  | PDict d => negb (Nat.eqb (size d) 0)
  | PDatetime _ => true
  end.

(** [v[k]] for a string key [k]. *)
Definition py_getitem (v : value) (k : string) : exn + value :=
  match v with
  | PDict d => match d !! k with
               | Some x => inr x
               | None => inl (KeyError k)
               end
  | _ => inl TypeError
  end.

(** [v[k] = x] for a string key [k]; the dictionary is updated in place,
    modelled by returning the updated object. *)
Definition py_setitem (v : value) (k : string) (x : value) : exn + value :=
  match v with
  | PDict d => inr (PDict (<[k := x]> d))
  | _ => inl TypeError
  end.

(** [k in d] for a dictionary [d]. *)
Definition py_contains (d : gmap string value) (k : string) : bool :=
  bool_decide (is_Some (d !! k)).

(** [len(v)]. *)
Definition py_len (v : value) : exn + Z :=
  match v with
  | PStr s => inr (Z.of_nat (String.length s))
  | PList l => inr (Z.of_nat (length l))
  | PDict d => inr (Z.of_nat (size d))
  | _ => inl TypeError
  end.

(** The elements [for x in v] goes through: the items of a list, the keys
    of a dictionary (in the order of the map, not of insertion), the
    characters of a string. *)
Definition py_iter (v : value) : exn + list value :=
  match v with
  | PList l => inr l
  | PDict d => inr (PStr <$> (map_to_list d).*1)
  | PStr s => inr ((λ c, PStr (String c EmptyString)) <$> String.list_ascii_of_string s)
  | _ => inl TypeError
  end.

(** [n >= v] for an [int] [n]. *)
Definition py_int_ge (n : Z) (v : value) : exn + bool :=
  match v with
  | PInt t => inr (t <=? n)
  | PBool b => inr (Z.b2z b <=? n)
  | PFloat f => inr (int_ge_float n f)
  | _ => inl TypeError
  end.

End ValueOps.

(** ** Effects

    A computation reads the clock, may raise, and leaves a trace.  [NoFuel]
    is the answer of a loop that was given too few iterations; it is not a
    Python outcome. *)

Inductive res (A : Type) :=
| Val (a : A)
| Exn (e : exn)
| NoFuel.

Arguments Val {A} a.
Arguments Exn {A} e.
Arguments NoFuel {A}.

Section Monad.

Context `{Externals}.

Definition M (A : Type) : Type := world → res A * list (event pyfloat) * world.

Definition ret {A} (a : A) : M A := λ w, (Val a, [], w).

Definition bind {A B} (m : M A) (k : A → M B) : M B :=
  λ w, match m w with
       | (Val a, t1, w1) =>
           match k a w1 with
           | (r, t2, w2) => (r, t1 ++ t2, w2)
           end
       | (Exn e, t1, w1) => (Exn e, t1, w1)
       | (NoFuel, t1, w1) => (NoFuel, t1, w1)
       end.

Definition raise {A} (e : exn) : M A := λ w, (Exn e, [], w).

Definition out_of_fuel {A} : M A := λ w, (NoFuel, [], w).

(** A pure operation that returns or raises. *)
Definition lift {A} (x : exn + A) : M A :=
  match x with
  | inr a => ret a
  | inl e => raise e
  end.

(** [yield v] of the generator that is being run. *)
Definition emit (v : value) : M unit := λ w, (Val tt, [Emit v], w).

(** One round trip to the registry. *)
Definition send (r : request pyfloat) : M string :=
  λ w, (match http_fetch r with
        | inr text => Val text
        | inl e => Exn e
        end, [Request r], w).

Definition utcnow : M datetime :=
  λ w, let '(t, w') := datetime_utcnow w in (Val t, [], w').

(** [try: m except requests.exceptions.HTTPError as e: log; raise e]:
    the handler logs and raises the exception it caught. *)
Definition reraise_http {A} (m : M A) : M A :=
  λ w, match m w with
       | (Exn (HTTPError text), t, w') => (Exn (HTTPError text), t, w')
       | other => other
       end.

End Monad.

Notation "'let*' x ':=' c 'in' k" := (bind c (λ x, k))
  (at level 10, x pattern, c at level 100, k at level 200).

(** The same for a pure operation that returns or raises. *)
Definition sum_bind {A B} (x : exn + A) (k : A → exn + B) : exn + B :=
  match x with
  | inr a => k a
  | inl e => inl e
  end.

Notation "'let+' x ':=' c 'in' k" := (sum_bind c (λ x, k))
  (at level 10, x pattern, c at level 100, k at level 200).

(** ** Module constants *)

Definition CRATES_URL : string := "https://crates.io/".
Definition CRATES_API_URL : string := "https://crates.io/api/v1/".
Definition CATEGORY_CRATES : string := "crates".
Definition CATEGORY_SUMMARY : string := "summary".
Definition SLEEP_TIME : Z := 60.

(** ** class CratesClient *)

Module CratesClient.
Section CratesClient.

Context `{Externals}.

Definition MAX_RETRIES : Z := 5.

(** [fetch(url, payload=None)]: the text of the response. *)
Definition fetch (url : string) (payload : option (gmap string value)) : M string :=
  send (mk_request url payload).

(** The generator made by [__fetch_items(path, page)], between two calls
    of [next]: not started yet, suspended at its [yield] with the values
    of its locals, or finished. *)
Inductive fetch_items_gen :=
| GenStart (path : string) (page : Z)
| GenYield (path : string) (parsed_crates : Z) (total_crates : value) (page : Z)
| GenDone.

(** One turn of the [while fetch_data] loop, up to its [yield]. *)
Definition fetch_items_turn (path : string) (parsed_crates : Z)
    (total_crates : value) (page : Z) : M (option string * fetch_items_gen) :=
  let* (raw_content, parsed_crates, total_crates) :=
    reraise_http
      (let payload : gmap string value :=
         {[ "sort" := PStr "alphabetical"; "page" := PInt page ]} in
       let* raw_content := fetch path (Some payload) in
       let* content := lift (json_loads raw_content) in
       let* crates := lift (py_getitem content "crates") in
       let* n := lift (py_len crates) in
       let parsed_crates := parsed_crates + n in
       let* total_crates :=
         if negb (truthy total_crates)
         then let* meta := lift (py_getitem content "meta") in
              lift (py_getitem meta "total")
         else ret total_crates in
       ret (raw_content, parsed_crates, total_crates)) in
  ret (Some raw_content, GenYield path parsed_crates total_crates page).

(** [next(g)]: run the generator to its next [yield] ([Some raw]) or to
    its end ([None], StopIteration). *)
Definition next (g : fetch_items_gen) : M (option string * fetch_items_gen) :=
  match g with
  | GenStart path page =>
      (* fetch_data = True; parsed_crates = 0; total_crates = 0 *)
      fetch_items_turn path 0 (PInt 0) page
  | GenYield path parsed_crates total_crates page =>
      let page := page + 1 in
      let* reached := lift (py_int_ge parsed_crates total_crates) in
      let fetch_data := if reached then false else true in
      if fetch_data
      then fetch_items_turn path parsed_crates total_crates page
      else ret (None, GenDone)
  | GenDone => ret (None, GenDone)
  end.

Definition __fetch_items (path : string) (page : Z) : fetch_items_gen :=
  GenStart path page.

(** [summary()] *)
Definition summary : M string :=
  let path := urijoin [PStr CRATES_API_URL; PStr CATEGORY_SUMMARY] in
  fetch path None.

(** [crates(from_page=1)] *)
Definition crates (from_page : Z) : fetch_items_gen :=
  let path := urijoin [PStr CRATES_API_URL; PStr CATEGORY_CRATES] in
  __fetch_items path from_page.

(** [crate(crate_id)] *)
Definition crate (crate_id : value) : M string :=
  let path := urijoin [PStr CRATES_API_URL; PStr CATEGORY_CRATES; crate_id] in
  fetch path None.

(** [crate_attribute(crate_id, attribute)] *)
Definition crate_attribute (crate_id : value) (attribute : string) : M string :=
  let path := urijoin [PStr CRATES_API_URL; PStr CATEGORY_CRATES; crate_id;
                       PStr attribute] in
  fetch path None.

(** [list(g)]: the generator driven to its end, at most [fuel] calls of
    [next]. *)
Fixpoint drain (fuel : nat) (g : fetch_items_gen) : M (list string) :=
  match fuel with
  | O => out_of_fuel
  | S fuel' =>
      let* (page, g') := next g in
      match page with
      | None => ret []
      | Some raw_content =>
          let* rest := drain fuel' g' in
          ret (raw_content :: rest)
      end
  end.

(** *** What the registry serves, page by page

    The request [__fetch_items] sends for page [n], and what comes back
    for it as the loop reads it. *)

Definition page_request (path : string) (n : Z) : request pyfloat :=
  mk_request path (Some {[ "sort" := PStr "alphabetical"; "page" := PInt n ]}).

(** The text of page [n] (empty when the request fails). *)
Definition page_text (path : string) (n : Z) : string :=
  match http_fetch (page_request path n) with
  | inr raw_content => raw_content
  | inl _ => ""
  end.

(** The decoded envelope of page [n]. *)
Definition page_content (path : string) (n : Z) : option value :=
  match http_fetch (page_request path n) with
  | inr raw_content =>
      match json_loads raw_content with
      | inr content => Some content
      | inl _ => None
      end
  | inl _ => None
  end.

(** [len(content['crates'])] of page [n]. *)
Definition page_crates_len (path : string) (n : Z) : option Z :=
  match page_content path n with
  | Some content =>
      match (let+ crates := py_getitem content "crates" in py_len crates) with
      | inr k => Some k
      | inl _ => None
      end
  | None => None
  end.

(** [content['meta']['total']] of page [n]. *)
Definition page_total (path : string) (n : Z) : option value :=
  match page_content path n with
  | Some content =>
      match (let+ meta := py_getitem content "meta" in py_getitem meta "total") with
      | inr total => Some total
      | inl _ => None
      end
  | None => None
  end.

(** The number of crates listed on pages [1 .. k] together. *)
Fixpoint cumulative (path : string) (k : nat) : Z :=
  match k with
  | O => 0
  | S k' => cumulative path k' + default 0 (page_crates_len path (Z.of_nat k))
  end.

(** The page numbers [1 .. k]. *)
Definition page_numbers (k : nat) : list Z := Z.of_nat <$> seq 1 k.

(** The [k] page numbers from [q] on. *)
Fixpoint pages_from (q : Z) (k : nat) : list Z :=
  match k with
  | O => []
  | S k' => q :: pages_from (q + 1) k'
  end.

(** The generator is about to ask for page [q]. *)
Definition gen_at (path : string) (q : Z) (g : fetch_items_gen) : Prop :=
  g = GenStart path q ∨
  ∃ parsed_crates total_crates, g = GenYield path parsed_crates total_crates (q - 1).

(** The number of crates listed on the [k] pages from [p] on. *)
Fixpoint cumulative_from (path : string) (p : Z) (k : nat) : Z :=
  match k with
  | O => 0
  | S k' => cumulative_from path p k'
            + default 0 (page_crates_len path (p + Z.of_nat k'))
  end.

(** What a run makes of the rest of the run, once [pages] were yielded
    with the requests [trace]. *)
Definition after_pages (pages : list string) (trace : list (event pyfloat))
    (rest : res (list string) * list (event pyfloat) * world)
  : res (list string) * list (event pyfloat) * world :=
  match rest with
  | (Val more, t, w) => (Val (pages ++ more), trace ++ t, w)
  | (Exn e, t, w) => (Exn e, trace ++ t, w)
  | (NoFuel, t, w) => (NoFuel, trace ++ t, w)
  end.

End CratesClient.
End CratesClient.

(** ** class Crates *)

Module Crates.
Section Crates.

Context `{Externals}.

Definition version : string := "1.0.0".
Definition CATEGORIES : list string := [CATEGORY_CRATES; CATEGORY_SUMMARY].

Definition has_archiving : bool := true.
Definition has_resuming : bool := false.

(** [metadata_category(item)] *)
Definition metadata_category (item : gmap string value) : string :=
  if py_contains item "num_downloads"
  then CATEGORY_SUMMARY
  else CATEGORY_CRATES.

(** [metadata_id(item)] *)
Definition metadata_id (item : gmap string value) : exn + value :=
  if String.eqb (metadata_category item) CATEGORY_CRATES
  then
    let+ id := py_getitem (PDict item) "id" in
    inr (PStr (py_str id))
  else
    let+ ts := py_getitem (PDict item) "fetched_on" in
    let+ ts := str_to_datetime ts in
    inr (PStr (py_str (PFloat (timestamp ts)))).

(** [metadata_updated_on(item)] *)
Definition metadata_updated_on (item : gmap string value) : exn + value :=
  let+ ts :=
    if String.eqb (metadata_category item) CATEGORY_CRATES
    then py_getitem (PDict item) "updated_at"
    else py_getitem (PDict item) "fetched_on" in
  let+ ts := str_to_datetime ts in
  inr (PFloat (timestamp ts)).

(** [__fetch_summary()], driven to its end. *)
Definition __fetch_summary : M unit :=
  let* raw_summary := CratesClient.summary in
  let* summary := lift (json_loads raw_summary) in
  let* now := utcnow in
  let* summary := lift (py_setitem summary "fetched_on" (PStr (py_str (PDatetime now)))) in
  emit summary.

(** [__fetch_crate_owner_team(crate_id)] *)
Definition __fetch_crate_owner_team (crate_id : value) : M value :=
  let* raw_owner_team := CratesClient.crate_attribute crate_id "owner_team" in
  let* owner_team := lift (json_loads raw_owner_team) in
  ret owner_team.

(** [__fetch_crate_owner_user(crate_id)] *)
Definition __fetch_crate_owner_user (crate_id : value) : M value :=
  let* raw_owner_user := CratesClient.crate_attribute crate_id "owner_user" in
  let* owner_user := lift (json_loads raw_owner_user) in
  ret owner_user.

(** [__fetch_crate_versions(crate_id)] *)
Definition __fetch_crate_versions (crate_id : value) : M value :=
  let* raw_versions := CratesClient.crate_attribute crate_id "versions" in
  let* version_downloads := lift (json_loads raw_versions) in
  ret version_downloads.

(** [__fetch_crate_version_downloads(crate_id)] *)
Definition __fetch_crate_version_downloads (crate_id : value) : M value :=
  let* raw_version_downloads := CratesClient.crate_attribute crate_id "downloads" in
  let* version_downloads := lift (json_loads raw_version_downloads) in
  ret version_downloads.

(** [__fetch_crate_data(crate_id)] *)
Definition __fetch_crate_data (crate_id : value) : M value :=
  let* raw_crate := CratesClient.crate crate_id in
  let* crate := lift (json_loads raw_crate) in
  lift (py_getitem crate "crate").

(** The body of [for crate_container in crates['crates']]. *)
Definition crate_body (from_date : datetime) (crate_container : value) : M unit :=
  let* updated_at := lift (py_getitem crate_container "updated_at") in
  let* updated_at := lift (str_to_datetime updated_at) in
  let* older := lift (dt_lt updated_at from_date) in
  if older then ret tt (* continue *)
  else
    let* crate_id := lift (py_getitem crate_container "id") in
    let* crate := __fetch_crate_data crate_id in
    let* owner_team := __fetch_crate_owner_team crate_id in
    let* crate := lift (py_setitem crate "owner_team_data" owner_team) in
    let* owner_user := __fetch_crate_owner_user crate_id in
    let* crate := lift (py_setitem crate "owner_user_data" owner_user) in
    let* version_downloads := __fetch_crate_version_downloads crate_id in
    let* crate := lift (py_setitem crate "version_downloads_data" version_downloads) in
    let* versions := __fetch_crate_versions crate_id in
    let* crate := lift (py_setitem crate "versions_data" versions) in
    emit crate.

(** [for x in l: body(x)] *)
Fixpoint for_each {A} (body : A → M unit) (l : list A) : M unit :=
  match l with
  | [] => ret tt
  | x :: l' => let* _ := body x in for_each body l'
  end.

(** The body of [for raw_crates in crates_groups]. *)
Definition page_body (from_date : datetime) (raw_crates : string) : M unit :=
  let* crates := lift (json_loads raw_crates) in
  let* listing := lift (py_getitem crates "crates") in
  let* entries := lift (py_iter listing) in
  for_each (crate_body from_date) entries.

(** [for raw_crates in crates_groups], at most [fuel] calls of [next]. *)
Fixpoint for_pages (fuel : nat) (from_date : datetime)
    (crates_groups : CratesClient.fetch_items_gen) : M unit :=
  match fuel with
  | O => out_of_fuel
  | S fuel' =>
      let* (page, crates_groups) := CratesClient.next crates_groups in
      match page with
      | None => ret tt
      | Some raw_crates =>
          let* _ := page_body from_date raw_crates in
          for_pages fuel' from_date crates_groups
      end
  end.

(** [__fetch_crates(from_date)], driven to its end. *)
Definition __fetch_crates (fuel : nat) (from_date : value) : M unit :=
  let* from_date := lift (datetime_to_utc from_date) in
  let crates_groups := CratesClient.crates 1 in
  for_pages fuel from_date crates_groups.

(** [fetch_items(category, **kwargs)] *)
Definition fetch_items (fuel : nat) (category : string)
    (kwargs : gmap string value) : M unit :=
  let* from_date := lift (py_getitem (PDict kwargs) "from_date") in
  if String.eqb category CATEGORY_CRATES
  then __fetch_crates fuel from_date
  else __fetch_summary.

(** [fetch(category=CATEGORY_CRATES, from_date=DEFAULT_DATETIME)] *)
Definition fetch (category : string) (from_date : value) : exn + items :=
  let from_date :=
    if negb (truthy from_date) then PDatetime DEFAULT_DATETIME else from_date in
  let+ from_date := datetime_to_utc from_date in
  let kwargs : gmap string value := {[ "from_date" := PDatetime from_date ]} in
  inr (Backend_fetch category kwargs).

(** *** Reading a run

    The requests a crate costs, the record the aggregator is meant to build
    for a listing entry, and the projections of a trace. *)

Definition crate_request (crate_id : value) : request pyfloat :=
  mk_request (urijoin [PStr CRATES_API_URL; PStr CATEGORY_CRATES; crate_id]) None.

Definition attribute_request (crate_id : value) (attribute : string) : request pyfloat :=
  mk_request (urijoin [PStr CRATES_API_URL; PStr CATEGORY_CRATES; crate_id;
                       PStr attribute]) None.

(** The sub-fetches of one crate, in the order in which they are sent. *)
Definition crate_requests (crate_id : value) : list (request pyfloat) :=
  [ crate_request crate_id;
    attribute_request crate_id "owner_team";
    attribute_request crate_id "owner_user";
    attribute_request crate_id "downloads";
    attribute_request crate_id "versions" ].

(** The decoded answer to a request. *)
Definition fetched (r : request pyfloat) : exn + value :=
  let+ text := http_fetch r in json_loads text.

(** The composite record of a listing entry, in the specification's words:
    the crate's core detail merged with its four sub-resource payloads
    under the keys [owner_team_data], [owner_user_data],
    [version_downloads_data] and [versions_data]. *)
Definition composite_record (crate_container : value) : exn + value :=
  let+ crate_id := py_getitem crate_container "id" in
  let+ detail := fetched (crate_request crate_id) in
  let+ crate := py_getitem detail "crate" in
  let+ owner_team := fetched (attribute_request crate_id "owner_team") in
  let+ crate := py_setitem crate "owner_team_data" owner_team in
  let+ owner_user := fetched (attribute_request crate_id "owner_user") in
  let+ crate := py_setitem crate "owner_user_data" owner_user in
  let+ version_downloads := fetched (attribute_request crate_id "downloads") in
  let+ crate := py_setitem crate "version_downloads_data" version_downloads in
  let+ versions := fetched (attribute_request crate_id "versions") in
  py_setitem crate "versions_data" versions.

Definition EXTRA_KEYS : list string :=
  ["owner_team_data"; "owner_user_data"; "version_downloads_data"; "versions_data"].

(** A record that has all four extra keys. *)
Definition complete (record : value) : Prop :=
  ∃ d, record = PDict d ∧ Forall (λ k, is_Some (d !! k)) EXTRA_KEYS.

(** The parsed [updated_at] of a listing entry. *)
Definition updated_at (crate_container : value) : exn + datetime :=
  let+ ts := py_getitem crate_container "updated_at" in str_to_datetime ts.

(** The entry passes the watermark filter: its [updated_at] parses and is
    not before [from_date]. *)
Definition passes (from_date : datetime) (crate_container : value) : bool :=
  match (let+ t := updated_at crate_container in dt_lt t from_date) with
  | inr older => negb older
  | inl _ => false
  end.

(** The entries a page text lists, as the aggregator goes through them
    (none when the text does not decode). *)
Definition listed (raw_crates : string) : list value :=
  match (let+ crates := json_loads raw_crates in
         let+ listing := py_getitem crates "crates" in
         py_iter listing) with
  | inr entries => entries
  | inl _ => []
  end.

(** The entries listed on page [n]. *)
Definition page_entries (path : string) (n : Z) : list value :=
  match http_fetch (CratesClient.page_request path n) with
  | inr raw_crates => listed raw_crates
  | inl _ => []
  end.

(** The values yielded during a run, and the requests sent. *)
Definition emitted (trace : list (event pyfloat)) : list value :=
  omap (λ ev, match ev with Emit v => Some v | Request _ => None end) trace.

Definition requests (trace : list (event pyfloat)) : list (request pyfloat) :=
  omap (λ ev, match ev with Request r => Some r | Emit _ => None end) trace.

(** The requests for pages of the listing: those sent with a payload. *)
Definition listing_requests (trace : list (event pyfloat)) : list (request pyfloat) :=
  filter (λ r, is_Some (req_payload r)) (requests trace).

(** The path of the listing. *)
Definition crates_path : string := urijoin [PStr CRATES_API_URL; PStr CATEGORY_CRATES].

(** The request of [summary()]. *)
Definition summary_request : request pyfloat :=
  mk_request (urijoin [PStr CRATES_API_URL; PStr CATEGORY_SUMMARY]) None.

(** What a run makes of the rest of the run, once [trace] has happened. *)
Definition after_trace {A} (trace : list (event pyfloat))
    (rest : res A * list (event pyfloat) * world) : res A * list (event pyfloat) * world :=
  match rest with
  | (r, t, w) => (r, trace ++ t, w)
  end.

(** The loop body goes through the entry without raising: the entry is
    filtered out, or it passes and its composite record can be built. *)
Definition entry_ok (from_date : datetime) (crate_container : value) : bool :=
  match (let+ t := updated_at crate_container in dt_lt t from_date) with
  | inr true => true
  | inr false =>
      match composite_record crate_container with
      | inr _ => true
      | inl _ => false
      end
  | inl _ => false
  end.

End Crates.
End Crates.

(** ** A registry for examples

    A test double of the collaborators: responses, decoded documents and
    dates are looked up in tables, floats are whole seconds, and the clock
    advances by one second at each reading. *)

Module Mock.

Fixpoint assoc {A} (k : string) (l : list (string * A)) : option A :=
  match l with
  | [] => None
  | (k', a) :: l' => if String.eqb k k' then Some a else assoc k l'
  end.

Record registry := {
  pages : list string;                        (* the texts of pages 1, 2, ... *)
  routes : list (string * (exn + string));    (* url ↦ response *)
  documents : list (string * pyval Z);        (* text ↦ decoded JSON *)
  dates : list (string * datetime)            (* text ↦ parsed date *)
}.

Fixpoint lstrip (s : string) : string :=
  match s with
  | String "/"%char s' => lstrip s'
  | _ => s
  end.

Definition strip (s : string) : string :=
  String.rev (lstrip (String.rev (lstrip s))).

Definition str (v : pyval Z) : string :=
  match v with
  | PNone => "None"
  | PBool b => if b then "True" else "False"
  | PInt z => pretty z
  | PFloat f => pretty f +:+ ".0"
  | PStr s => s
  | PList _ => "[..]"
  | PDict _ => "{..}"
  | PDatetime t => "datetime:" +:+ pretty (dt_instant t)
  end.

Definition join (args : list (pyval Z)) : string :=
  String.concat "/" ((λ x, strip (str x)) <$> args).

Definition listing_url : string := "https://crates.io/api/v1/crates".

Definition serve (R : registry) (r : request Z) : exn + string :=
  match req_payload r with
  | Some payload =>
      match payload !! "page" with
      | Some (PInt n) =>
          if String.eqb (req_url r) listing_url && (1 <=? n)
          then match pages R !! Z.to_nat (n - 1) with
               | Some text => inr text
               | None => inl (HTTPError "404 Not Found")
               end
          else inl (HTTPError "404 Not Found")
      | _ => inl (HTTPError "400 Bad Request")
      end
  | None =>
      match assoc (req_url r) (routes R) with
      | Some response => response
      | None => inl (HTTPError "404 Not Found")
      end
  end.

Definition env (R : registry) : Externals := {|
  pyfloat := Z;
  float_truthy f := negb (f =? 0);
  int_ge_float n f := f <=? n;
  py_str := str;
  json_loads text :=
    match assoc text (documents R) with
    | Some v => inr v
    | None => inl JSONDecodeError
    end;
  urijoin := join;
  str_to_datetime v :=
    match v with
    | PStr s => match assoc s (dates R) with
                | Some t => inr t
                | None => inl InvalidDateError
                end
    | _ => inl InvalidDateError
    end;
  datetime_to_utc v :=
    match v with
    | PDatetime t => inr (mk_datetime (dt_instant t) (Some 0))
    | _ => inl InvalidDateError
    end;
  timestamp t := dt_instant t `div` 1000000;
  DEFAULT_DATETIME := mk_datetime 0 (Some 0);
  world := Z;
  datetime_utcnow w := (mk_datetime w (Some 0), w + 1000000);
  http_fetch := serve R;
  items := string * gmap string (pyval Z);
  Backend_fetch category kwargs := (category, kwargs)
|}.

(** Dates, as seconds since the epoch. *)
Definition utc (seconds : Z) : datetime := mk_datetime (seconds * 1000000) (Some 0).

Definition calendar : list (string * datetime) :=
  [ ("2010-01-01T00:00:00+00:00", utc 1262304000);
    ("2020-01-01T00:00:00+00:00", utc 1577836800);
    ("2021-06-01T00:00:00+00:00", utc 1622505600);
    ("2022-03-01T00:00:00+00:00", utc 1646092800) ].

(** The watermark of the examples: 2015-01-01T00:00:00+00:00. *)
Definition watermark : pyval Z := PDatetime (utc 1420070400).

Definition entry (id updated_at : string) : pyval Z :=
  PDict {[ "id" := PStr id; "updated_at" := PStr updated_at ]}.

Definition envelope (crates : list (pyval Z)) (total : Z) : pyval Z :=
  PDict {[ "crates" := PList crates;
           "meta" := PDict {[ "total" := PInt total ]} ]}.

Definition detail (id updated_at : string) : pyval Z :=
  PDict {[ "crate" := PDict {[ "id" := PStr id; "updated_at" := PStr updated_at;
                               "downloads" := PInt 7 ]} ]}.

(** The five resources of a crate, each served under its url. *)
Definition crate_routes (id : string) (versions : exn + string)
  : list (string * (exn + string)) :=
  [ (listing_url +:+ "/" +:+ id, inr (id +:+ ".detail"));
    (listing_url +:+ "/" +:+ id +:+ "/owner_team", inr "teams");
    (listing_url +:+ "/" +:+ id +:+ "/owner_user", inr "users");
    (listing_url +:+ "/" +:+ id +:+ "/downloads", inr "downloads");
    (listing_url +:+ "/" +:+ id +:+ "/versions", versions) ].

Definition attribute_documents : list (string * pyval Z) :=
  [ ("teams", PDict {[ "teams" := PList [] ]});
    ("users", PDict {[ "users" := PList [PDict {[ "login" := PStr "dtolnay" ]}] ]});
    ("downloads", PDict {[ "version_downloads" := PList [] ]});
    ("versions", PDict {[ "versions" := PList [PDict {[ "num" := PStr "1.0.0" ]}] ]});
    ("summary", PDict {[ "num_downloads" := PInt 5; "num_crates" := PInt 3 ]}) ].

(** The record built from [detail id updated_at] and the attribute
    documents. *)
Definition composite (id updated_at : string) : pyval Z :=
  PDict {[ "id" := PStr id; "updated_at" := PStr updated_at; "downloads" := PInt 7;
           "owner_team_data" := PDict {[ "teams" := PList [] ]};
           "owner_user_data" :=
             PDict {[ "users" := PList [PDict {[ "login" := PStr "dtolnay" ]}] ]};
           "version_downloads_data" := PDict {[ "version_downloads" := PList [] ]};
           "versions_data" :=
             PDict {[ "versions" := PList [PDict {[ "num" := PStr "1.0.0" ]}] ]} ]}.

(** Three crates on two pages; [old] was last updated before the
    watermark. *)
Definition demo : registry := {|
  pages := ["page-1"; "page-2"];
  routes :=
    ("https://crates.io/api/v1/summary", inr "summary")
    :: crate_routes "serde" (inr "versions") ++ crate_routes "tokio" (inr "versions");
  documents :=
    [ ("page-1", envelope [entry "serde" "2021-06-01T00:00:00+00:00";
                           entry "old" "2010-01-01T00:00:00+00:00"] 3);
      ("page-2", envelope [entry "tokio" "2022-03-01T00:00:00+00:00"] 3);
      ("serde.detail", detail "serde" "2021-06-01T00:00:00+00:00");
      ("tokio.detail", detail "tokio" "2022-03-01T00:00:00+00:00") ]
    ++ attribute_documents;
  dates := calendar
|}.

(** A first page that lists nothing although the registry reports one
    crate. *)
Definition empty_first : registry := {|
  pages := ["page-1"; "page-2"];
  routes := [];
  documents :=
    [ ("page-1", envelope [] 1);
      ("page-2", envelope [entry "old" "2010-01-01T00:00:00+00:00"] 1) ];
  dates := calendar
|}.

(** An empty registry: the first page lists nothing and reports no crate. *)
Definition nothing : registry := {|
  pages := ["page-1"];
  routes := [];
  documents := [ ("page-1", envelope [] 0) ];
  dates := calendar
|}.

(** The listing says [serde] was updated in 2021, its detail says 2010. *)
Definition stale_detail : registry := {|
  pages := ["page-1"];
  routes := crate_routes "serde" (inr "versions");
  documents :=
    [ ("page-1", envelope [entry "serde" "2021-06-01T00:00:00+00:00"] 1);
      ("serde.detail", detail "serde" "2010-01-01T00:00:00+00:00") ]
    ++ attribute_documents;
  dates := calendar
|}.

(** The versions of [serde] cannot be fetched. *)
Definition versions_down : registry := {|
  pages := ["page-1"];
  routes := crate_routes "serde" (inl (HTTPError "503 Service Unavailable"));
  documents :=
    [ ("page-1", envelope [entry "serde" "2021-06-01T00:00:00+00:00"] 1);
      ("serde.detail", detail "serde" "2021-06-01T00:00:00+00:00") ]
    ++ attribute_documents;
  dates := calendar
|}.

(** The environments of the examples. *)
Definition demo_env : Externals := env demo.
Definition nothing_env : Externals := env nothing.
Definition empty_first_env : Externals := env empty_first.
Definition stale_detail_env : Externals := env stale_detail.
Definition versions_down_env : Externals := env versions_down.

(** The two items of the specification's examples. *)
Definition summary_item : gmap string (pyval Z) :=
  {[ "num_downloads" := PInt 5; "fetched_on" := PStr "2020-01-01T00:00:00+00:00" ]}.

Definition crate_item : gmap string (pyval Z) :=
  {[ "id" := PInt 42; "updated_at" := PStr "2021-06-01T00:00:00+00:00" ]}.

(** A listing entry that passes the watermark. *)
Definition serde : pyval Z := entry "serde" "2021-06-01T00:00:00+00:00".

(** The same collaborators over another transport. *)
Definition env_with (transport : request Z → exn + string) (R : registry) : Externals := {|
  pyfloat := Z;
  float_truthy f := negb (f =? 0);
  int_ge_float n f := f <=? n;
  py_str := str;
  json_loads text :=
    match assoc text (documents R) with
    | Some v => inr v
    | None => inl JSONDecodeError
    end;
  urijoin := join;
  str_to_datetime v :=
    match v with
    | PStr s => match assoc s (dates R) with
                | Some t => inr t
                | None => inl InvalidDateError
                end
    | _ => inl InvalidDateError
    end;
  datetime_to_utc v :=
    match v with
    | PDatetime t => inr (mk_datetime (dt_instant t) (Some 0))
    | _ => inl InvalidDateError
    end;
  timestamp t := dt_instant t `div` 1000000;
  DEFAULT_DATETIME := mk_datetime 0 (Some 0);
  world := Z;
  datetime_utcnow w := (mk_datetime w (Some 0), w + 1000000);
  http_fetch := transport;
  items := string * gmap string (pyval Z);
  Backend_fetch category kwargs := (category, kwargs)
|}.

(** A registry that answers every request with the same empty page, which
    reports one crate. *)
Definition endless_env : Externals := env_with (λ _, inr "page-1") empty_first.

(** A registry whose date parser reads the stamps of the clock. *)
Definition clocked : registry := {|
  pages := [];
  routes := [ ("https://crates.io/api/v1/summary", inr "summary") ];
  documents := attribute_documents;
  dates := [ ("datetime:0", utc 0) ]
|}.

Definition clocked_env : Externals := env clocked.

End Mock.

(** * Properties *)

(** ** Running computations *)

Section MonadFacts.

Context `{Externals}.

Lemma run_bind {A B} (m : M A) (k : A → M B) w a t1 w1 :
  m w = (Val a, t1, w1) →
  bind m k w = (let '(r, t2, w2) := k a w1 in (r, t1 ++ t2, w2)).
Proof. intros Hm. unfold bind. rewrite Hm. reflexivity. Qed.

Lemma run_bind_exn {A B} (m : M A) (k : A → M B) w e t1 w1 :
  m w = (Exn e, t1, w1) → bind m k w = (Exn e, t1, w1).
Proof. intros Hm. unfold bind. rewrite Hm. reflexivity. Qed.

Lemma run_bind_ret {A B} (a : A) (k : A → M B) w : bind (ret a) k w = k a w.
Proof. unfold bind, ret. destruct (k a w) as [[r t] w']. reflexivity. Qed.

Lemma run_bind_lift {A B} (x : exn + A) (k : A → M B) w a :
  x = inr a → bind (lift x) k w = k a w.
Proof. intros ->. apply run_bind_ret. Qed.

Lemma run_bind_lift_exn {A B} (x : exn + A) (k : A → M B) w e :
  x = inl e → bind (lift x) k w = (Exn e, [], w).
Proof. intros ->. reflexivity. Qed.

Lemma run_send_ok r text w :
  http_fetch r = inr text → send r w = (Val text, [Request r], w).
Proof. intros Hr. unfold send. rewrite Hr. reflexivity. Qed.

Lemma run_send_exn r e w :
  http_fetch r = inl e → send r w = (Exn e, [Request r], w).
Proof. intros Hr. unfold send. rewrite Hr. reflexivity. Qed.

End MonadFacts.

(** ** The paginated page fetcher *)

Module PageFetcher.
Section PageFetcher.

Import CratesClient.
Context `{Externals}.

Lemma page_crates_len_inv path n k :
  page_crates_len path n = Some k →
  ∃ content crates,
    http_fetch (page_request path n) = inr (page_text path n) ∧
    json_loads (page_text path n) = inr content ∧
    py_getitem content "crates" = inr crates ∧
    py_len crates = inr k.
Proof.
  unfold page_crates_len, page_content, page_text.
  destruct (http_fetch (page_request path n)) as [e | raw] eqn:Hreq; [done |].
  destruct (json_loads raw) as [e | content] eqn:Hjson; [done |].
  unfold sum_bind.
  destruct (py_getitem content "crates") as [e | crates] eqn:Hget; [done |].
  destruct (py_len crates) as [e | k'] eqn:Hlen; [done |].
  intros [= <-]. eexists _, _. repeat split; eassumption || reflexivity.
Qed.

Lemma page_total_inv path n total :
  page_total path n = Some total →
  ∃ content meta,
    json_loads (page_text path n) = inr content ∧
    py_getitem content "meta" = inr meta ∧
    py_getitem meta "total" = inr total.
Proof.
  unfold page_total, page_content, page_text.
  destruct (http_fetch (page_request path n)) as [e | raw] eqn:Hreq; [done |].
  destruct (json_loads raw) as [e | content] eqn:Hjson; [done |].
  unfold sum_bind.
  destruct (py_getitem content "meta") as [e | meta] eqn:Hmeta; [done |].
  destruct (py_getitem meta "total") as [e | t] eqn:Ht; [done |].
  intros [= <-]. eexists _, _. repeat split; eassumption || reflexivity.
Qed.

Lemma py_len_nonneg (v : value) k : py_len v = inr k → 0 ≤ k.
Proof. destruct v; simpl; intros [= <-]; lia. Qed.

Lemma page_crates_len_nonneg path n k : page_crates_len path n = Some k → 0 ≤ k.
Proof.
  intros (content & crates & _ & _ & _ & Hlen)%page_crates_len_inv.
  by eapply py_len_nonneg.
Qed.

Lemma cumulative_nonneg path k : 0 ≤ cumulative path k.
Proof.
  induction k as [| k IH]; simpl; [lia |].
  destruct (page_crates_len path (Z.of_nat (S k))) as [n |] eqn:Hn; simpl; [| lia].
  apply page_crates_len_nonneg in Hn. lia.
Qed.

(** A turn of the loop on a page that decodes, once the total is known. *)
Lemma turn_known path parsed total n k w :
  page_crates_len path n = Some k →
  truthy total = true →
  fetch_items_turn path parsed total n w =
    (Val (Some (page_text path n), GenYield path (parsed + k) total n),
     [Request (page_request path n)], w).
Proof.
  intros (content & crates & Hreq & Hjson & Hget & Hlen)%page_crates_len_inv Htot.
  unfold fetch_items_turn, reraise_http, bind, fetch, send.
  fold (page_request path n). rewrite Hreq. simpl.
  rewrite Hjson. simpl. rewrite Hget. simpl. rewrite Hlen. simpl.
  rewrite Htot. simpl. reflexivity.
Qed.

(** The first turn: the total is still [0] and is read from the page. *)
Lemma turn_first path n k total w :
  page_crates_len path n = Some k →
  page_total path n = Some total →
  fetch_items_turn path 0 (PInt 0) n w =
    (Val (Some (page_text path n), GenYield path k total n),
     [Request (page_request path n)], w).
Proof.
  intros (content & crates & Hreq & Hjson & Hget & Hlen)%page_crates_len_inv.
  intros (content' & meta & Hjson' & Hmeta & Htotal)%page_total_inv.
  rewrite Hjson in Hjson'. injection Hjson' as <-.
  unfold fetch_items_turn, reraise_http, bind, fetch, send.
  fold (page_request path n). rewrite Hreq. simpl.
  rewrite Hjson. simpl. rewrite Hget. simpl. rewrite Hlen. simpl.
  rewrite Hmeta. simpl. rewrite Htotal. simpl. reflexivity.
Qed.

Lemma drain_stop fuel g w :
  next g w = (Val (None, GenDone), [], w) →
  drain (S fuel) g w = (Val [], [], w).
Proof. intros Hn. simpl. by rewrite (run_bind _ _ _ _ _ _ Hn). Qed.

Lemma drain_step fuel g g' raw t w rest t' :
  next g w = (Val (Some raw, g'), t, w) →
  drain fuel g' w = (Val rest, t', w) →
  drain (S fuel) g w = (Val (raw :: rest), t ++ t', w).
Proof.
  intros Hn Hd. simpl. rewrite (run_bind _ _ _ _ _ _ Hn).
  rewrite (run_bind _ _ _ _ _ _ Hd). simpl. by rewrite app_nil_r.
Qed.

(** The loop resumed after page [j], with [n] more pages to go before the
    running count reaches the total [T]. *)
Lemma drain_resume path T (n : nat) : ∀ (j fuel : nat) w,
  (n < fuel)%nat →
  (∀ i, (j < i ≤ j + n)%nat → is_Some (page_crates_len path (Z.of_nat i))) →
  (∀ i, (j ≤ i < j + n)%nat → cumulative path i < T) →
  T ≤ cumulative path (j + n) →
  drain fuel (GenYield path (cumulative path j) (PInt T) (Z.of_nat j)) w =
    (Val (page_text path <$> (Z.of_nat <$> seq (S j) n)),
     (λ p, Request (page_request path p)) <$> (Z.of_nat <$> seq (S j) n), w).
Proof.
  induction n as [| n IH]; intros j fuel w Hfuel Hpages Hbelow Hreach.
  - destruct fuel as [| fuel]; [lia |].
    apply drain_stop. simpl.
    replace (T <=? cumulative path j) with true; [done |].
    symmetry. apply Z.leb_le. by rewrite Nat.add_0_r in Hreach.
  - destruct fuel as [| fuel]; [lia |].
    destruct (Hpages (S j)) as [k Hk]; [lia |].
    assert (cumulative path j < T) as Hlt by (apply Hbelow; lia).
    pose proof (cumulative_nonneg path j) as Hnn.
    change (seq (S j) (S n)) with (S j :: seq (S (S j)) n).
    rewrite !fmap_cons.
    change (?x :: ?l) with ([x] ++ l) at 2.
    eapply drain_step.
    + simpl. replace (T <=? cumulative path j) with false
        by (symmetry; apply Z.leb_gt; lia).
      simpl. replace (Z.of_nat j + 1) with (Z.of_nat (S j)) by lia.
      rewrite run_bind_ret.
      apply turn_known; [exact Hk |].
      simpl. apply negb_true_iff, Z.eqb_neq. lia.
    + replace (cumulative path j + k) with (cumulative path (S j))
        by (simpl cumulative; rewrite Hk; reflexivity).
      apply IH.
      * lia.
      * intros i Hi. apply Hpages. lia.
      * intros i Hi. apply Hbelow. lia.
      * by replace (S j + n)%nat with (j + S n)%nat by lia.
Qed.

(** Whatever happens in a turn, it sends exactly the request for its
    page. *)
Lemma turn_trace path parsed total n w :
  ∃ r, fetch_items_turn path parsed total n w =
         (r, [Request (page_request path n)], w).
Proof.
  unfold fetch_items_turn, reraise_http, bind, fetch, send.
  fold (page_request path n).
  destruct (http_fetch (page_request path n)) as [e | raw]; simpl.
  { destruct e; eauto. }
  destruct (json_loads raw) as [e | content]; simpl.
  { destruct e; eauto. }
  destruct (py_getitem content "crates") as [e | crates]; simpl.
  { destruct e; eauto. }
  destruct (py_len crates) as [e | k]; simpl.
  { destruct e; eauto. }
  destruct (truthy total); simpl; [eauto |].
  destruct (py_getitem content "meta") as [e | meta]; simpl.
  { destruct e; eauto. }
  destruct (py_getitem meta "total") as [e | t]; simpl.
  { destruct e; eauto. }
  eauto.
Qed.

Lemma bind_trace_prefix {A B} (m : M A) (k : A → M B) w r0 t0 w0 :
  m w = (r0, t0, w0) → ∃ r t w', bind m k w = (r, t0 ++ t, w').
Proof.
  intros Hm. unfold bind. rewrite Hm. destruct r0 as [a | e |].
  - destruct (k a w0) as [[r t] w']. eauto.
  - exists (Exn e), [], w0. by rewrite app_nil_r.
  - exists NoFuel, [], w0. by rewrite app_nil_r.
Qed.

(** Resumed below the total, the generator sends the request for the
    next page. *)
Lemma next_resume_below path parsed T page w :
  parsed < T →
  ∃ r, next (GenYield path parsed (PInt T) page) w =
         (r, [Request (page_request path (page + 1))], w).
Proof.
  intros Hlt. unfold next, py_int_ge.
  replace (T <=? parsed) with false by (symmetry; apply Z.leb_gt; lia).
  rewrite (run_bind_lift _ _ _ false eq_refl).
  apply turn_trace.
Qed.

(** C1. When the pages [1 .. K] decode, page 1 reports the total [T], and
    the running count of listed crates reaches [T] on page [K] and not
    before, the page fetcher started at page 1 yields the texts of the
    pages [1 .. K], in that order, and then ends: it has sent the [K]
    requests for these pages and nothing else. *)
Theorem pagination_terminates path (K : nat) (T : Z) (fuel : nat) w :
  (1 ≤ K)%nat →
  (∀ i, (1 ≤ i ≤ K)%nat → is_Some (page_crates_len path (Z.of_nat i))) →
  page_total path 1 = Some (PInt T) →
  T ≤ cumulative path K →
  (∀ j, (1 ≤ j < K)%nat → cumulative path j < T) →
  (K < fuel)%nat →
  drain fuel (__fetch_items path 1) w =
    (Val (page_text path <$> page_numbers K),
     (λ p, Request (page_request path p)) <$> page_numbers K, w).
Proof.
  intros HK Hpages Htotal Hreach Hbelow Hfuel.
  destruct K as [| K]; [lia |]. destruct fuel as [| fuel]; [lia |].
  destruct (Hpages 1%nat) as [k Hk]; [lia |]. change (Z.of_nat 1) with 1 in Hk.
  unfold page_numbers. change (seq 1 (S K)) with (1%nat :: seq 2 K).
  rewrite !fmap_cons. change (?x :: ?l) with ([x] ++ l) at 2.
  eapply drain_step.
  - apply (turn_first path 1 k (PInt T) w Hk Htotal).
  - replace k with (cumulative path 1).
    + apply (drain_resume path T K 1 fuel w).
      * lia.
      * intros i Hi. apply Hpages. lia.
      * intros i Hi. apply Hbelow. lia.
      * exact Hreach.
    + simpl cumulative. change (Z.of_nat 1) with 1. rewrite Hk. simpl. lia.
Qed.

(** C4, as amended. When page 1 decodes and reports the total [T] for [k]
    listed crates: if [T] is zero, or the page is empty and [T] is not
    positive, the page fetcher yields page 1 and ends, having sent the
    request for page 1 only; if the page is empty and [T] is positive, it
    goes on and sends the request for page 2. *)
Theorem first_page_only path (k T : Z) (fuel : nat) w :
  page_crates_len path 1 = Some k →
  page_total path 1 = Some (PInt T) →
  (1 < fuel)%nat →
  (T = 0 ∨ (k = 0 ∧ T ≤ 0) →
     drain fuel (__fetch_items path 1) w =
       (Val [page_text path 1], [Request (page_request path 1)], w)) ∧
  (k = 0 ∧ 0 < T →
     ∃ r t w', drain fuel (__fetch_items path 1) w =
       (r, Request (page_request path 1) :: Request (page_request path 2) :: t, w')).
Proof.
  intros Hk Htotal Hfuel.
  pose proof (page_crates_len_nonneg _ _ _ Hk) as Hnn.
  split.
  - intros Hcase.
    destruct fuel as [| fuel]; [lia |].
    change [Request (page_request path 1)] with ([Request (page_request path 1)] ++ []).
    eapply drain_step.
    + apply (turn_first path 1 k (PInt T) w Hk Htotal).
    + replace k with (cumulative path 1)
        by (simpl cumulative; change (Z.of_nat 1) with 1; rewrite Hk; simpl; lia).
      apply (drain_resume path T 0 1 fuel w).
      * lia.
      * intros i Hi. lia.
      * intros i Hi. lia.
      * simpl cumulative. change (Z.of_nat 1) with 1. rewrite Hk. simpl. lia.
  - intros [-> HT].
    destruct fuel as [| [| fuel]]; [lia | lia |].
    cbn [drain].
    assert (next (__fetch_items path 1) w =
              (Val (Some (page_text path 1), GenYield path 0 (PInt T) 1),
               [Request (page_request path 1)], w)) as Hfirst
      by apply (turn_first path 1 0 (PInt T) w Hk Htotal).
    rewrite (run_bind _ _ _ _ _ _ Hfirst).
    destruct (next_resume_below path 0 T 1 w HT) as [r Hr].
    change (1 + 1) with 2 in Hr.
    match goal with
    | |- context [bind (bind (next ?g) ?k1) ?k2 w] =>
        destruct (bind_trace_prefix (next g) k1 w _ _ _ Hr) as (r1 & t1 & w1 & Hb1);
        destruct (bind_trace_prefix (bind (next g) k1) k2 w _ _ _ Hb1)
          as (r2 & t2 & w2 & Hb2)
    end.
    rewrite Hb2.
    eexists _, _, _. simpl. reflexivity.
Qed.

End PageFetcher.

Import CratesClient.

Section Demo.

#[local] Existing Instance Mock.demo_env.

(** The registry [Mock.demo] lists 2 + 1 crates on two pages and reports
    3: the count reaches the total on page 2. *)
Lemma pagination_terminates_witness :
  drain 3 (__fetch_items Mock.listing_url 1) 0 =
    (Val (page_text Mock.listing_url <$> page_numbers 2),
     (λ p, Request (page_request Mock.listing_url p)) <$> page_numbers 2, 0).
Proof.
  apply (pagination_terminates (H := Mock.demo_env) Mock.listing_url 2 3 3 0).
  - lia.
  - intros i Hi. assert (i = 1 ∨ i = 2)%nat as [-> | ->] by lia;
      vm_compute; by eexists.
  - vm_compute. reflexivity.
  - vm_compute. discriminate.
  - intros j Hj. replace j with 1%nat by lia. vm_compute. reflexivity.
  - lia.
Defined.

Example pagination_demo :
  drain 3 (crates 1) 0 =
    (Val ["page-1"; "page-2"],
     [Request (page_request Mock.listing_url 1);
      Request (page_request Mock.listing_url 2)], 0).
Proof. vm_compute. reflexivity. Qed.

End Demo.

Section Nothing.

#[local] Existing Instance Mock.nothing_env.

(** The registry [Mock.nothing] reports no crate at all. *)
Lemma first_page_only_witness :
  drain 2 (__fetch_items Mock.listing_url 1) 0 =
    (Val [page_text Mock.listing_url 1],
     [Request (page_request Mock.listing_url 1)], 0).
Proof.
  refine (proj1 (first_page_only (H := Mock.nothing_env) Mock.listing_url 0 0 2 0 _ _ _) _).
  - vm_compute. reflexivity.
  - vm_compute. reflexivity.
  - lia.
  - left. reflexivity.
Defined.

End Nothing.

Section EmptyFirst.

#[local] Existing Instance Mock.empty_first_env.

(** The first page of [Mock.empty_first] lists nothing, and yet the page
    fetcher does not stop after it: it requests page 2 and yields two
    pages. *)
Lemma empty_first_page_goes_on :
  page_crates_len Mock.listing_url 1 = Some 0 ∧
  drain 3 (crates 1) 0 =
    (Val ["page-1"; "page-2"],
     [Request (page_request Mock.listing_url 1);
      Request (page_request Mock.listing_url 2)], 0) ∧
  drain 3 (crates 1) 0 ≠
    (Val [page_text Mock.listing_url 1],
     [Request (page_request Mock.listing_url 1)], 0).
Proof.
  split; [vm_compute; reflexivity |].
  split; [vm_compute; reflexivity |].
  vm_compute. discriminate.
Qed.

End EmptyFirst.

End PageFetcher.

(** ** The item classifier *)

Module Classifier.
Section Classifier.

Import Crates.
Context `{Externals}.

Lemma category_names_differ : CATEGORY_SUMMARY ≠ CATEGORY_CRATES.
Proof. discriminate. Qed.

(** C6. The category of an item is [summary] exactly when the item has a
    [num_downloads] key, and [crates] exactly when it has none. *)
Theorem metadata_category_by_key (item : gmap string value) :
  (metadata_category item = CATEGORY_SUMMARY ↔ is_Some (item !! "num_downloads")) ∧
  (metadata_category item = CATEGORY_CRATES ↔ item !! "num_downloads" = None).
Proof.
  unfold metadata_category, py_contains.
  case_bool_decide as Hkey.
  - split; split; intros Hc; [exact Hkey | reflexivity | |].
    + by apply category_names_differ in Hc.
    + rewrite Hc in Hkey. by destruct Hkey.
  - split; split; intros Hc; [| by destruct Hkey | | reflexivity].
    + symmetry in Hc. by apply category_names_differ in Hc.
    + by apply eq_None_not_Some.
Qed.

Lemma category_crates (item : gmap string value) :
  item !! "num_downloads" = None →
  String.eqb (metadata_category item) CATEGORY_CRATES = true.
Proof.
  intros Hkey. unfold metadata_category, py_contains.
  rewrite bool_decide_eq_false_2; [done |]. rewrite Hkey. by intros [? ?].
Qed.

Lemma category_summary (item : gmap string value) :
  is_Some (item !! "num_downloads") →
  String.eqb (metadata_category item) CATEGORY_CRATES = false.
Proof.
  intros Hkey. unfold metadata_category, py_contains.
  by rewrite bool_decide_eq_true_2.
Qed.

(** C7, as amended. For a crate item, the identifier is [str] of its [id]
    and the update time is the timestamp of its parsed [updated_at]; for a
    summary item, the update time is the timestamp of its parsed
    [fetched_on], and the identifier is [str] of that timestamp: a string,
    not the number. *)
Theorem metadata_id_and_updated_on (item : gmap string value) (ts : value) (t : datetime) :
  str_to_datetime ts = inr t →
  (item !! "num_downloads" = None →
     (∀ id, item !! "id" = Some id → metadata_id item = inr (PStr (py_str id))) ∧
     (item !! "updated_at" = Some ts →
        metadata_updated_on item = inr (PFloat (timestamp t)))) ∧
  (is_Some (item !! "num_downloads") → item !! "fetched_on" = Some ts →
     metadata_id item = inr (PStr (py_str (PFloat (timestamp t)))) ∧
     metadata_updated_on item = inr (PFloat (timestamp t))).
Proof.
  intros Hparse. split.
  - intros Hkey. pose proof (category_crates item Hkey) as Hcat. split.
    + intros id Hid. unfold metadata_id. rewrite Hcat. simpl. by rewrite Hid.
    + intros Hts. unfold metadata_updated_on. rewrite Hcat. simpl.
      rewrite Hts. simpl. by rewrite Hparse.
  - intros Hkey Hts. pose proof (category_summary item Hkey) as Hcat. split.
    + unfold metadata_id. rewrite Hcat. simpl. rewrite Hts. simpl. by rewrite Hparse.
    + unfold metadata_updated_on. rewrite Hcat. simpl. rewrite Hts. simpl.
      by rewrite Hparse.
Qed.

End Classifier.

Section Demo.

Import Crates.
#[local] Existing Instance Mock.demo_env.

Lemma metadata_id_and_updated_on_witness :
  metadata_id Mock.summary_item = inr (PStr (py_str (PFloat (timestamp (Mock.utc 1577836800))))) ∧
  metadata_updated_on Mock.summary_item = inr (PFloat (timestamp (Mock.utc 1577836800))).
Proof.
  refine (proj2 (metadata_id_and_updated_on (H := Mock.demo_env) Mock.summary_item
                   (PStr "2020-01-01T00:00:00+00:00") (Mock.utc 1577836800) _) _ _).
  - vm_compute. reflexivity.
  - vm_compute. by eexists.
  - vm_compute. reflexivity.
Defined.

Example classifier_demo :
  metadata_category Mock.summary_item = "summary" ∧
  metadata_id Mock.summary_item = inr (PStr "1577836800.0") ∧
  metadata_updated_on Mock.summary_item = inr (PFloat 1577836800) ∧
  metadata_category Mock.crate_item = "crates" ∧
  metadata_id Mock.crate_item = inr (PStr "42") ∧
  metadata_updated_on Mock.crate_item = inr (PFloat 1622505600).
Proof. vm_compute. repeat split. Qed.

(** The identifier of a summary item is not the numeric timestamp of its
    [fetched_on]: it is a string. *)
Lemma summary_identifier_is_a_string :
  is_Some (Mock.summary_item !! "num_downloads") ∧
  str_to_datetime (PStr "2020-01-01T00:00:00+00:00") = inr (Mock.utc 1577836800) ∧
  metadata_id Mock.summary_item ≠ inr (PFloat (timestamp (Mock.utc 1577836800))) ∧
  metadata_id Mock.summary_item = inr (PStr "1577836800.0").
Proof.
  split; [vm_compute; by eexists |].
  split; [vm_compute; reflexivity |].
  split; [vm_compute; discriminate | vm_compute; reflexivity].
Qed.

End Demo.

End Classifier.

(** ** Crates.fetch *)

Module Fetch.
Section Fetch.

Import Crates.
Context `{Externals}.

(** C10. A falsy [from_date] is replaced by [DEFAULT_DATETIME]: the call
    behaves as the one with the default, and what reaches [Backend.fetch] as
    the watermark is [DEFAULT_DATETIME] normalized to UTC. *)
Theorem fetch_falsy_from_date (category : string) (from_date : value) :
  truthy from_date = false →
  fetch category from_date = fetch category (PDatetime DEFAULT_DATETIME) ∧
  fetch category from_date =
    (let+ watermark := datetime_to_utc (PDatetime DEFAULT_DATETIME) in
     inr (Backend_fetch category {[ "from_date" := PDatetime watermark ]})).
Proof.
  intros Hfalsy. unfold fetch. rewrite Hfalsy. simpl. done.
Qed.

End Fetch.

Section Demo.

Import Crates.
#[local] Existing Instance Mock.demo_env.

Lemma fetch_falsy_from_date_witness :
  fetch CATEGORY_CRATES PNone = fetch CATEGORY_CRATES (PDatetime DEFAULT_DATETIME) ∧
  fetch CATEGORY_CRATES PNone =
    (let+ watermark := datetime_to_utc (PDatetime DEFAULT_DATETIME) in
     inr (Backend_fetch CATEGORY_CRATES {[ "from_date" := PDatetime watermark ]})).
Proof.
  apply (fetch_falsy_from_date (H := Mock.demo_env) CATEGORY_CRATES PNone).
  reflexivity.
Defined.

Example fetch_none_demo :
  fetch CATEGORY_CRATES PNone =
    inr (CATEGORY_CRATES, {[ "from_date" := PDatetime (mk_datetime 0 (Some 0)) ]}).
Proof. vm_compute. reflexivity. Qed.

End Demo.

End Fetch.

(** ** The summary fetcher *)

Module Summary.
Section Summary.

Import Crates.
Context `{Externals}.

Lemma fetch_summary_run raw (payload : gmap string value) w :
  http_fetch (mk_request (urijoin [PStr CRATES_API_URL; PStr CATEGORY_SUMMARY]) None) = inr raw →
  json_loads raw = inr (PDict payload) →
  __fetch_summary w =
    (Val tt,
     [ Request (mk_request (urijoin [PStr CRATES_API_URL; PStr CATEGORY_SUMMARY]) None);
       Emit (PDict (<["fetched_on" := PStr (py_str (PDatetime (datetime_utcnow w).1))]> payload)) ],
     (datetime_utcnow w).2).
Proof.
  intros Hreq Hjson.
  unfold __fetch_summary, CratesClient.summary, CratesClient.fetch.
  rewrite (run_bind _ _ _ _ _ _ (run_send_ok _ _ w Hreq)).
  rewrite (run_bind_lift _ _ _ _ Hjson).
  unfold bind, utcnow, emit. destruct (datetime_utcnow w) as [now w']. reflexivity.
Qed.

(** C8. When the summary resource decodes to a dictionary, one invocation
    of the summary fetcher sends one request and yields exactly one record:
    the decoded payload with [fetched_on] set to the clock reading.  The
    records of two invocations, whatever the clock says at each, agree on
    every key other than [fetched_on]. *)
Theorem fetch_summary_twice raw (payload : gmap string value) (w1 w2 : world) :
  http_fetch (mk_request (urijoin [PStr CRATES_API_URL; PStr CATEGORY_SUMMARY]) None) = inr raw →
  json_loads raw = inr (PDict payload) →
  ∃ r1 r2 : gmap string value,
    (__fetch_summary w1).1.2 =
      [ Request (mk_request (urijoin [PStr CRATES_API_URL; PStr CATEGORY_SUMMARY]) None);
        Emit (PDict r1) ] ∧
    (__fetch_summary w2).1.2 =
      [ Request (mk_request (urijoin [PStr CRATES_API_URL; PStr CATEGORY_SUMMARY]) None);
        Emit (PDict r2) ] ∧
    (__fetch_summary w1).1.1 = Val tt ∧
    (__fetch_summary w2).1.1 = Val tt ∧
    r1 = <["fetched_on" := PStr (py_str (PDatetime (datetime_utcnow w1).1))]> payload ∧
    r2 = <["fetched_on" := PStr (py_str (PDatetime (datetime_utcnow w2).1))]> payload ∧
    delete "fetched_on" r1 = delete "fetched_on" r2.
Proof.
  intros Hreq Hjson.
  rewrite (fetch_summary_run raw payload w1 Hreq Hjson).
  rewrite (fetch_summary_run raw payload w2 Hreq Hjson).
  eexists _, _. repeat split; try reflexivity.
  by rewrite !delete_insert_eq.
Qed.

End Summary.

Section Demo.

Import Crates.
#[local] Existing Instance Mock.demo_env.

Lemma fetch_summary_twice_witness :
  ∃ r1 r2 : gmap string value,
    (__fetch_summary 0).1.2 =
      [ Request (mk_request (urijoin [PStr CRATES_API_URL; PStr CATEGORY_SUMMARY]) None);
        Emit (PDict r1) ] ∧
    (__fetch_summary 5000000).1.2 =
      [ Request (mk_request (urijoin [PStr CRATES_API_URL; PStr CATEGORY_SUMMARY]) None);
        Emit (PDict r2) ] ∧
    (__fetch_summary 0).1.1 = Val tt ∧
    (__fetch_summary 5000000).1.1 = Val tt ∧
    r1 = <["fetched_on" := PStr (py_str (PDatetime (datetime_utcnow 0).1))]>
           {[ "num_downloads" := PInt 5; "num_crates" := PInt 3 ]} ∧
    r2 = <["fetched_on" := PStr (py_str (PDatetime (datetime_utcnow 5000000).1))]>
           {[ "num_downloads" := PInt 5; "num_crates" := PInt 3 ]} ∧
    delete "fetched_on" r1 = delete "fetched_on" r2.
Proof.
  apply (fetch_summary_twice (H := Mock.demo_env) "summary"
           {[ "num_downloads" := PInt 5; "num_crates" := PInt 3 ]} 0 5000000).
  - vm_compute. reflexivity.
  - vm_compute. reflexivity.
Defined.

Example summary_demo :
  __fetch_summary 0 =
    (Val tt,
     [ Request (mk_request "https://crates.io/api/v1/summary" None);
       Emit (PDict {[ "num_downloads" := PInt 5; "num_crates" := PInt 3;
                      "fetched_on" := PStr "datetime:0" ]}) ],
     1000000).
Proof. vm_compute. reflexivity. Qed.

End Demo.

End Summary.

(** ** The incremental crate aggregator *)

Module Aggregator.
Section Aggregator.

Import Crates.
Context `{Externals}.

Lemma run_bind_any {A B} (m : M A) (k : A → M B) w r t w1 :
  m w = (r, t, w1) →
  bind m k w =
    match r with
    | Val a => let '(r2, t2, w2) := k a w1 in (r2, t ++ t2, w2)
    | Exn e => (Exn e, t, w1)
    | NoFuel => (NoFuel, t, w1)
    end.
Proof. intros Hm. unfold bind. rewrite Hm. by destruct r. Qed.

(** A sub-fetch sends its request and returns the decoded answer. *)
Lemma attribute_run (crate_id : value) (attribute : string) w :
  (let* raw := CratesClient.crate_attribute crate_id attribute in
   let* decoded := lift (json_loads raw) in ret decoded) w =
    (match fetched (attribute_request crate_id attribute) with
     | inr v => Val v
     | inl x => Exn x
     end, [Request (attribute_request crate_id attribute)], w).
Proof.
  unfold CratesClient.crate_attribute, CratesClient.fetch, fetched, bind, send.
  fold (attribute_request crate_id attribute).
  destruct (http_fetch (attribute_request crate_id attribute)) as [x | raw]; [done |].
  simpl. destruct (json_loads raw); reflexivity.
Qed.

Lemma crate_data_run (crate_id : value) w :
  __fetch_crate_data crate_id w =
    (match (let+ detail := fetched (crate_request crate_id) in py_getitem detail "crate") with
     | inr v => Val v
     | inl x => Exn x
     end, [Request (crate_request crate_id)], w).
Proof.
  unfold __fetch_crate_data, CratesClient.crate, CratesClient.fetch, fetched, bind, send.
  fold (crate_request crate_id).
  destruct (http_fetch (crate_request crate_id)) as [x | raw]; [done |].
  simpl. destruct (json_loads raw) as [x | detail]; [done |].
  simpl. destruct (py_getitem detail "crate"); reflexivity.
Qed.

Lemma owner_team_run crate_id w :
  __fetch_crate_owner_team crate_id w =
    (match fetched (attribute_request crate_id "owner_team") with
     | inr v => Val v
     | inl x => Exn x
     end, [Request (attribute_request crate_id "owner_team")], w).
Proof. apply attribute_run. Qed.

Lemma owner_user_run crate_id w :
  __fetch_crate_owner_user crate_id w =
    (match fetched (attribute_request crate_id "owner_user") with
     | inr v => Val v
     | inl x => Exn x
     end, [Request (attribute_request crate_id "owner_user")], w).
Proof. apply attribute_run. Qed.

Lemma version_downloads_run crate_id w :
  __fetch_crate_version_downloads crate_id w =
    (match fetched (attribute_request crate_id "downloads") with
     | inr v => Val v
     | inl x => Exn x
     end, [Request (attribute_request crate_id "downloads")], w).
Proof. apply attribute_run. Qed.

Lemma versions_run crate_id w :
  __fetch_crate_versions crate_id w =
    (match fetched (attribute_request crate_id "versions") with
     | inr v => Val v
     | inl x => Exn x
     end, [Request (attribute_request crate_id "versions")], w).
Proof. apply attribute_run. Qed.

Lemma py_setitem_inr (c : value) k v c' :
  py_setitem c k v = inr c' → ∃ d, c = PDict d ∧ c' = PDict (<[k := v]> d).
Proof. destruct c; simpl; intros [= <-]. eauto. Qed.

Lemma run_bind_setitem {B} (d : gmap string value) k v (K : value → M B) w :
  bind (lift (py_setitem (PDict d) k v)) K w = K (PDict (<[k := v]> d)) w.
Proof. apply run_bind_ret. Qed.

(** Among the requests of a run that raised, only the last one can have
    failed, and then with the exception that was raised. *)
Ltac only_last_fails :=
  let req := fresh "req" in
  let y := fresh "y" in
  let Hin := fresh "Hin" in
  let Hy := fresh "Hy" in
  intros req y Hin Hy;
  repeat (apply elem_of_cons in Hin as [-> | Hin]);
  try (by apply elem_of_nil in Hin);
  first [ exfalso; congruence | split; [congruence | reflexivity] ].

Ltac no_payload :=
  let req := fresh "req" in
  let Hin := fresh "Hin" in
  intros req Hin;
  repeat (apply elem_of_cons in Hin as [-> | Hin]);
  try (by apply elem_of_nil in Hin);
  reflexivity.

Ltac raised reqs :=
  right; left; eexists _, reqs;
  split; [reflexivity | split; [done | split; [done | split; [no_payload | only_last_fails]]]].

Lemma crate_body_shape from_date e w :
  (crate_body from_date e w = (Val tt, [], w) ∧ passes from_date e = false) ∨
  (∃ x reqs, crate_body from_date e w = (Exn x, Request <$> reqs, w) ∧
     (passes from_date e = true → composite_record e = inl x) ∧
     (let+ t := updated_at e in dt_lt t from_date) ≠ inr true ∧
     (∀ req, req ∈ reqs → req_payload req = None) ∧
     ∀ req y, req ∈ reqs → fetched req = inl y → y = x ∧ last reqs = Some req) ∨
  (∃ crate_id record,
     crate_body from_date e w =
       (Val tt, (Request <$> crate_requests crate_id) ++ [Emit record], w) ∧
     passes from_date e = true ∧
     py_getitem e "id" = inr crate_id ∧
     composite_record e = inr record ∧
     ∀ req, req ∈ crate_requests crate_id → ∃ v, fetched req = inr v).
Proof.
  remember (crate_body from_date e w) as res eqn:Hres.
  unfold crate_body in Hres. unfold passes, updated_at, composite_record.
  destruct (py_getitem e "updated_at") as [x | u] eqn:Hu;
    [rewrite (run_bind_lift_exn _ _ _ x eq_refl) in Hres
    | rewrite (run_bind_lift _ _ _ u eq_refl) in Hres]; simpl.
  { subst res. raised (@nil (request pyfloat)). }
  destruct (str_to_datetime u) as [x | t] eqn:Ht;
    [rewrite (run_bind_lift_exn _ _ _ x eq_refl) in Hres
    | rewrite (run_bind_lift _ _ _ t eq_refl) in Hres]; simpl.
  { subst res. raised (@nil (request pyfloat)). }
  destruct (dt_lt t from_date) as [x | older] eqn:Holder;
    [rewrite (run_bind_lift_exn _ _ _ x eq_refl) in Hres
    | rewrite (run_bind_lift _ _ _ older eq_refl) in Hres]; simpl.
  { subst res. raised (@nil (request pyfloat)). }
  destruct older; simpl.
  { subst res. by left. }
  destruct (py_getitem e "id") as [x | crate_id] eqn:Hid;
    [rewrite (run_bind_lift_exn _ _ _ x eq_refl) in Hres
    | rewrite (run_bind_lift _ _ _ crate_id eq_refl) in Hres]; simpl.
  { subst res. raised (@nil (request pyfloat)). }
  rewrite (run_bind_any _ _ _ _ _ _ (crate_data_run crate_id w)) in Hres.
  destruct (fetched (crate_request crate_id)) as [x | detail] eqn:Hdetail; cbv beta iota delta [sum_bind] in Hres; simpl.
  { subst res. raised [crate_request crate_id]. }
  destruct (py_getitem detail "crate") as [x | crate] eqn:Hcrate; cbv beta iota delta [sum_bind] in Hres; simpl.
  { subst res. raised [crate_request crate_id]. }
  rewrite (run_bind_any _ _ _ _ _ _ (owner_team_run crate_id w)) in Hres.
  destruct (fetched (attribute_request crate_id "owner_team")) as [x | owner_team] eqn:Hteam;
    cbv beta iota delta [sum_bind] in Hres; simpl.
  { subst res. raised [crate_request crate_id; attribute_request crate_id "owner_team"]. }
  destruct (py_setitem crate "owner_team_data" owner_team) as [x | crate0] eqn:Hset;
    [rewrite (run_bind_lift_exn _ _ _ x eq_refl) in Hres
    | rewrite (run_bind_lift _ _ _ crate0 eq_refl) in Hres]; cbv beta iota delta [sum_bind] in Hres; simpl.
  { subst res. raised [crate_request crate_id; attribute_request crate_id "owner_team"]. }
  apply py_setitem_inr in Hset as (d & -> & ->).
  rewrite (run_bind_any _ _ _ _ _ _ (owner_user_run crate_id w)) in Hres.
  destruct (fetched (attribute_request crate_id "owner_user")) as [x | owner_user] eqn:Huser;
    cbv beta iota delta [sum_bind] in Hres; simpl.
  { subst res. raised [crate_request crate_id; attribute_request crate_id "owner_team";
                       attribute_request crate_id "owner_user"]. }
  rewrite run_bind_setitem in Hres.
  rewrite (run_bind_any _ _ _ _ _ _ (version_downloads_run crate_id w)) in Hres.
  destruct (fetched (attribute_request crate_id "downloads")) as [x | version_downloads]
    eqn:Hdownloads; cbv beta iota delta [sum_bind] in Hres; simpl.
  { subst res. raised [crate_request crate_id; attribute_request crate_id "owner_team";
                       attribute_request crate_id "owner_user";
                       attribute_request crate_id "downloads"]. }
  rewrite run_bind_setitem in Hres.
  rewrite (run_bind_any _ _ _ _ _ _ (versions_run crate_id w)) in Hres.
  destruct (fetched (attribute_request crate_id "versions")) as [x | versions] eqn:Hversions;
    cbv beta iota delta [sum_bind] in Hres; simpl.
  { subst res. raised (crate_requests crate_id). }
  rewrite run_bind_setitem in Hres. simpl in Hres.
  subst res. right; right. eexists crate_id, _.
  repeat split.
  intros req Hin. unfold crate_requests in Hin.
  repeat (apply elem_of_cons in Hin as [-> | Hin]); try (by apply elem_of_nil in Hin);
    eexists; eassumption.
Qed.

Lemma emitted_app (t1 t2 : list (event pyfloat)) :
  emitted (t1 ++ t2) = emitted t1 ++ emitted t2.
Proof. apply omap_app. Qed.

Lemma emitted_requests (reqs : list (request pyfloat)) : emitted (Request <$> reqs) = [].
Proof. induction reqs as [| r reqs IH]; [done | exact IH]. Qed.

Lemma requests_app (t1 t2 : list (event pyfloat)) :
  requests (t1 ++ t2) = requests t1 ++ requests t2.
Proof. apply omap_app. Qed.

Lemma requests_fmap (reqs : list (request pyfloat)) : requests (Request <$> reqs) = reqs.
Proof. induction reqs as [| r reqs IH]; [done |]. simpl. f_equal. exact IH. Qed.

Lemma listing_requests_app (t1 t2 : list (event pyfloat)) :
  listing_requests (t1 ++ t2) = listing_requests t1 ++ listing_requests t2.
Proof. unfold listing_requests. by rewrite requests_app, filter_app. Qed.

Lemma listing_requests_none (reqs : list (request pyfloat)) :
  (∀ req, req ∈ reqs → req_payload req = None) →
  listing_requests (Request <$> reqs) = [].
Proof.
  intros Hnone. unfold listing_requests. rewrite requests_fmap.
  induction reqs as [| r reqs IH]; [done |].
  rewrite filter_cons_False.
  - apply IH. intros req Hin. apply Hnone. by right.
  - rewrite (Hnone r); [by intros [? ?] | by left].
Qed.

Lemma crate_requests_no_payload crate_id req :
  req ∈ crate_requests crate_id → req_payload req = None.
Proof. revert req. unfold crate_requests. no_payload. Qed.

Lemma elem_of_trace_requests (reqs : list (request pyfloat)) req :
  Request req ∈ (Request <$> reqs : list (event pyfloat)) → req ∈ reqs.
Proof. intros (r & [= ->] & Hin)%list_elem_of_fmap. exact Hin. Qed.

Lemma last_app_nonempty {A} (l1 l2 : list A) x : last l2 = Some x → last (l1 ++ l2) = Some x.
Proof.
  intros Hlast. destruct l2 as [| y l2]; [done |].
  rewrite last_app. by rewrite Hlast.
Qed.

(** A composite record has the four extra keys. *)
Lemma composite_record_complete e record :
  composite_record e = inr record → complete record.
Proof.
  unfold composite_record, sum_bind.
  destruct (py_getitem e "id") as [| crate_id]; [done |].
  destruct (fetched (crate_request crate_id)) as [| detail]; [done |].
  destruct (py_getitem detail "crate") as [| crate]; [done |].
  destruct (fetched (attribute_request crate_id "owner_team")) as [| v1]; [done |].
  destruct (py_setitem crate "owner_team_data" v1) as [| crate0] eqn:Hset; [done |].
  apply py_setitem_inr in Hset as (d & -> & ->).
  destruct (fetched (attribute_request crate_id "owner_user")) as [| v2]; [done |].
  simpl.
  destruct (fetched (attribute_request crate_id "downloads")) as [| v3]; [done |].
  destruct (fetched (attribute_request crate_id "versions")) as [| v4]; [done |].
  intros [= <-]. eexists. split; [reflexivity |].
  repeat constructor; simplify_map_eq; by eexists.
Qed.

(** The loop over the entries of one page: the entries [done] were gone
    through, and the records yielded are, in order, the composite records
    of those of them that pass the filter. *)
Lemma for_each_shape from_date (es : list value) w :
  ∃ r tr processed rest,
    for_each (crate_body from_date) es w = (r, tr, w) ∧
    es = processed ++ rest ∧
    Forall2 (λ e record, composite_record e = inr record)
            (filter (passes from_date) processed) (emitted tr) ∧
    (r = Val tt ∧ rest = [] ∨ ∃ x, r = Exn x) ∧
    listing_requests tr = [] ∧
    (∀ req y, Request req ∈ tr → fetched req = inl y →
              r = Exn y ∧ last tr = Some (Request req)).
Proof.
  induction es as [| e es IH].
  - exists (Val tt), [], [], []. split_and!; try done.
    + by left.
    + intros req y Hin. by apply elem_of_nil in Hin.
  - destruct IH as (r & tr & processed & rest & Hrun & Hes & Hrec & Hres & Hlist & Hfail).
    cbn [for_each].
    destruct (crate_body_shape from_date e w)
      as [[Hbody Hpass] | [(x & reqs & Hbody & _ & _ & Hnone & Hlast)
                          | (crate_id & record & Hbody & Hpass & Hid & Hcomp & Hok)]].
    + (* skipped *)
      rewrite (run_bind _ _ _ _ _ _ Hbody), Hrun. simpl.
      exists r, tr, (e :: processed), rest. split_and!; try done.
      * by rewrite Hes.
      * rewrite filter_cons_False; [done |]. rewrite Hpass. by intros [].
    + (* a sub-fetch raised *)
      rewrite (run_bind_exn _ _ _ _ _ _ Hbody).
      exists (Exn x), (Request <$> reqs), [], (e :: es). split_and!; try done.
      * rewrite emitted_requests. constructor.
      * right. by exists x.
      * by apply listing_requests_none.
      * intros req y Hin%elem_of_trace_requests Hy.
        destruct (Hlast req y Hin Hy) as [-> Hl].
        by rewrite fmap_last, Hl.
    + (* a record was yielded *)
      rewrite (run_bind _ _ _ _ _ _ Hbody), Hrun. cbv beta iota.
      exists r, (((Request <$> crate_requests crate_id) ++ [Emit record]) ++ tr),
             (e :: processed), rest.
      assert (∀ req y, Request req ∈ ((Request <$> crate_requests crate_id) ++ [Emit record]) ++ tr →
                fetched req = inl y → Request req ∈ tr) as Htail.
      { intros req y [[Hin | Hin]%elem_of_app | Hin]%elem_of_app Hy; [| | done].
        - apply elem_of_trace_requests, Hok in Hin as [text Htext]. congruence.
        - apply list_elem_of_singleton in Hin. discriminate. }
      split_and!; try done.
      * by rewrite Hes.
      * rewrite filter_cons_True by (rewrite Hpass; exact I).
        rewrite !emitted_app, emitted_requests. simpl. by constructor.
      * intros req y Hin Hy. destruct (Hfail req y (Htail req y Hin Hy) Hy) as [-> Hl].
        split; [done |]. by apply last_app_nonempty.
Qed.

Lemma pages_from_numbers k : CratesClient.pages_from 1 k = CratesClient.page_numbers k.
Proof.
  unfold CratesClient.page_numbers.
  assert (∀ j : nat, CratesClient.pages_from (Z.of_nat j) k = Z.of_nat <$> seq j k) as Hgen.
  { induction k as [| k IH]; intros j; [done |].
    simpl. f_equal. replace (Z.of_nat j + 1) with (Z.of_nat (S j)) by lia. apply IH. }
  apply (Hgen 1%nat).
Qed.

(** One turn of the page loop: it sends the request for its page, and
    either raises or yields the text of that page. *)
Lemma turn_shape path parsed total n w :
  ∃ r, CratesClient.fetch_items_turn path parsed total n w =
         (r, [Request (CratesClient.page_request path n)], w) ∧
    ((∃ x, r = Exn x ∧ ∀ y, fetched (CratesClient.page_request path n) = inl y → y = x) ∨
     (∃ raw parsed' total' content,
        r = Val (Some raw, CratesClient.GenYield path parsed' total' n) ∧
        http_fetch (CratesClient.page_request path n) = inr raw ∧
        fetched (CratesClient.page_request path n) = inr content)).
Proof.
  unfold CratesClient.fetch_items_turn, reraise_http, bind, CratesClient.fetch, send, fetched.
  fold (CratesClient.page_request path n).
  destruct (http_fetch (CratesClient.page_request path n)) as [e | raw]; simpl.
  { destruct e; eexists; (split; [reflexivity |]); left; eexists;
      (split; [reflexivity | by intros y [= <-]]). }
  destruct (json_loads raw) as [e | content]; simpl.
  { destruct e; eexists; (split; [reflexivity |]); left; eexists;
      (split; [reflexivity | by intros y [= <-]]). }
  destruct (py_getitem content "crates") as [e | crates]; simpl.
  { destruct e; eexists; (split; [reflexivity |]); left; eexists;
      (split; [reflexivity | done]). }
  destruct (py_len crates) as [e | k]; simpl.
  { destruct e; eexists; (split; [reflexivity |]); left; eexists;
      (split; [reflexivity | done]). }
  destruct (truthy total); simpl.
  { eexists; (split; [reflexivity |]); right. by eexists _, _, _, _. }
  destruct (py_getitem content "meta") as [e | meta]; simpl.
  { destruct e; eexists; (split; [reflexivity |]); left; eexists;
      (split; [reflexivity | done]). }
  destruct (py_getitem meta "total") as [e | t]; simpl.
  { destruct e; eexists; (split; [reflexivity |]); left; eexists;
      (split; [reflexivity | done]). }
  eexists; (split; [reflexivity |]); right. by eexists _, _, _, _.
Qed.

(** [next] on a generator that is about to ask for page [q]. *)
Lemma next_shape path q g w :
  CratesClient.gen_at path q g →
  CratesClient.next g w = (Val (None, CratesClient.GenDone), [], w) ∨
  (∃ x, CratesClient.next g w = (Exn x, [], w)) ∨
  (∃ parsed total,
     CratesClient.next g w = CratesClient.fetch_items_turn path parsed total q w).
Proof.
  intros [-> | (parsed & total & ->)].
  - right; right. by eexists _, _.
  - unfold CratesClient.next.
    destruct (py_int_ge parsed total) as [x | reached] eqn:Hge.
    + right; left. exists x. by rewrite (run_bind_lift_exn _ _ _ x eq_refl).
    + rewrite (run_bind_lift _ _ _ reached eq_refl).
      destruct reached.
      * by left.
      * right; right. replace (q - 1 + 1) with q by lia. by eexists _, _.
Qed.

(** The body of the page loop on one page text. *)
Lemma page_body_shape from_date raw w :
  ∃ r tr processed rest,
    page_body from_date raw w = (r, tr, w) ∧
    listed raw = processed ++ rest ∧
    Forall2 (λ e record, composite_record e = inr record)
            (filter (passes from_date) processed) (emitted tr) ∧
    (r = Val tt ∧ rest = [] ∨ ∃ x, r = Exn x) ∧
    listing_requests tr = [] ∧
    (∀ req y, Request req ∈ tr → fetched req = inl y →
              r = Exn y ∧ last tr = Some (Request req)).
Proof.
  assert (∀ x, ∃ r tr processed rest,
            (Exn x : res unit, @nil (event pyfloat), w) = (r, tr, w) ∧
            @nil value = processed ++ rest ∧
            Forall2 (λ e record, composite_record e = inr record)
                    (filter (passes from_date) processed) (emitted tr) ∧
            (r = Val tt ∧ rest = [] ∨ ∃ x, r = Exn x) ∧
            listing_requests tr = [] ∧
            (∀ req y, Request req ∈ tr → fetched req = inl y →
                      r = Exn y ∧ last tr = Some (Request req))) as Hraise.
  { intros x. exists (Exn x), [], [], []. split_and!; try done.
    - right. by exists x.
    - intros req y Hin. by apply elem_of_nil in Hin. }
  unfold page_body, listed, sum_bind.
  destruct (json_loads raw) as [x | crates];
    [rewrite (run_bind_lift_exn _ _ _ x eq_refl); apply Hraise
    | rewrite (run_bind_lift _ _ _ crates eq_refl)].
  destruct (py_getitem crates "crates") as [x | listing];
    [rewrite (run_bind_lift_exn _ _ _ x eq_refl); apply Hraise
    | rewrite (run_bind_lift _ _ _ listing eq_refl)].
  destruct (py_iter listing) as [x | entries];
    [rewrite (run_bind_lift_exn _ _ _ x eq_refl); apply Hraise
    | rewrite (run_bind_lift _ _ _ entries eq_refl)].
  apply for_each_shape.
Qed.

(** The loop over the pages: [k] requests for pages were sent, for the
    pages [q, q + 1, ..]; the entries [processed] of these pages were gone
    through, in order, and the records yielded are the composite records of
    those of them that pass the filter. *)
Lemma for_pages_shape from_date path (fuel : nat) : ∀ q g w,
  CratesClient.gen_at path q g →
  ∃ r tr (k : nat) processed rest,
    for_pages fuel from_date g w = (r, tr, w) ∧
    listing_requests tr = CratesClient.page_request path <$> CratesClient.pages_from q k ∧
    concat (page_entries path <$> CratesClient.pages_from q k) = processed ++ rest ∧
    Forall2 (λ e record, composite_record e = inr record)
            (filter (passes from_date) processed) (emitted tr) ∧
    (r = Val tt → rest = []) ∧
    (∀ req y, Request req ∈ tr → fetched req = inl y →
              r = Exn y ∧ last tr = Some (Request req)).
Proof.
  induction fuel as [| fuel IH]; intros q g w Hg.
  { exists NoFuel, [], 0%nat, [], []. split_and!; try done.
    intros req y Hin. by apply elem_of_nil in Hin. }
  cbn [for_pages].
  destruct (next_shape path q g w Hg) as [Hstop | [[x Hx] | (parsed & total & Hturn)]].
  - rewrite (run_bind _ _ _ _ _ _ Hstop). simpl.
    exists (Val tt), [], 0%nat, [], []. split_and!; try done.
    intros req y Hin. by apply elem_of_nil in Hin.
  - rewrite (run_bind_exn _ _ _ _ _ _ Hx).
    exists (Exn x), [], 0%nat, [], []. split_and!; try done.
    intros req y Hin. by apply elem_of_nil in Hin.
  - destruct (turn_shape path parsed total q w)
      as (r1 & Hr1 & [(x & -> & Hx) | (raw & parsed' & total' & content & -> & Hraw & Hcontent)]);
      rewrite <- Hturn in Hr1.
    + (* the request for the page raised *)
      rewrite (run_bind_exn _ _ _ _ _ _ Hr1).
      exists (Exn x), [Request (CratesClient.page_request path q)], 1%nat,
             [], (page_entries path q ++ []).
      split_and!; try done.
      intros req y Hin%list_elem_of_singleton Hy. injection Hin as ->.
      by rewrite (Hx y Hy).
    + (* the page was yielded *)
      rewrite (run_bind _ _ _ _ _ _ Hr1). cbv beta iota.
      destruct (page_body_shape from_date raw w)
        as (r2 & tr2 & processed2 & rest2 & Hbody & Hlisted & Hrec2 & Hres2 & Hlist2 & Hfail2).
      assert (page_entries path q = listed raw) as Hentries
        by (unfold page_entries; by rewrite Hraw).
      destruct Hres2 as [[-> ->] | [x ->]].
      * (* its entries were all gone through *)
        rewrite (run_bind _ _ _ _ _ _ Hbody).
        destruct (IH (q + 1) (CratesClient.GenYield path parsed' total' q) w)
          as (r3 & tr3 & k3 & processed3 & rest3 & Hrun3 & Hlist3 & Hconcat3 & Hrec3
              & Hres3 & Hfail3).
        { right. exists parsed', total'. f_equal. lia. }
        rewrite Hrun3.
        exists r3, ([Request (CratesClient.page_request path q)] ++ tr2 ++ tr3), (S k3),
               (processed2 ++ processed3), rest3.
        assert (∀ req y,
                  Request req ∈ [Request (CratesClient.page_request path q)] ++ tr2 ++ tr3 →
                  fetched req = inl y → Request req ∈ tr3) as Htail.
        { intros req y [Hin | [Hin | Hin]%elem_of_app]%elem_of_app Hy; [| | done].
          - apply list_elem_of_singleton in Hin. injection Hin as ->. congruence.
          - by destruct (Hfail2 req y Hin Hy) as [? _]. }
        split_and!; try done.
        -- rewrite !listing_requests_app, Hlist2, Hlist3. done.
        -- cbn [CratesClient.pages_from fmap list_fmap concat].
           rewrite Hconcat3, Hentries, Hlisted, app_nil_r. by rewrite app_assoc.
        -- rewrite filter_app, !emitted_app. simpl. by apply Forall2_app.
        -- intros req y Hin Hy. destruct (Hfail3 req y (Htail req y Hin Hy) Hy) as [-> Hl].
           split; [done |]. rewrite app_assoc. by apply last_app_nonempty.
      * (* going through its entries raised *)
        rewrite (run_bind_exn _ _ _ _ _ _ Hbody).
        exists (Exn x), ([Request (CratesClient.page_request path q)] ++ tr2), 1%nat,
               processed2, rest2.
        split_and!; try done.
        -- rewrite listing_requests_app, Hlist2. done.
        -- cbn [CratesClient.pages_from fmap list_fmap concat].
           by rewrite app_nil_r, Hentries.
        -- intros req y [Hin | Hin]%elem_of_app Hy.
           ++ apply list_elem_of_singleton in Hin. injection Hin as ->. congruence.
           ++ destruct (Hfail2 req y Hin Hy) as [Hr Hl]. split; [done |].
              by apply last_app_nonempty.
Qed.

Lemma elem_of_concat {A} (x : A) (ls : list (list A)) :
  x ∈ concat ls → ∃ l, l ∈ ls ∧ x ∈ l.
Proof.
  induction ls as [| l ls IH]; simpl.
  - intros Hin. by apply elem_of_nil in Hin.
  - intros [Hin | Hin]%elem_of_app.
    + exists l. split; [by left | done].
    + destruct (IH Hin) as (l' & Hl' & Hx). exists l'. split; [by right | done].
Qed.


Lemma dt_lt_false_instant (a b : datetime) :
  dt_lt a b = inr false → dt_instant b ≤ dt_instant a.
Proof.
  unfold dt_lt, dt_instant.
  destruct (dt_utcoffset a) as [oa |], (dt_utcoffset b) as [ob |]; simpl;
    intros [= Hlt]; apply Z.ltb_ge in Hlt; lia.
Qed.

Lemma passes_inv from_date e :
  passes from_date e = true →
  ∃ t, updated_at e = inr t ∧ dt_lt t from_date = inr false.
Proof.
  unfold passes, sum_bind.
  destruct (updated_at e) as [x | t]; [done |].
  destruct (dt_lt t from_date) as [x | [|]] eqn:Hlt; [done | done |].
  intros _. by exists t.
Qed.

(** The whole run of [__fetch_crates] with a watermark that normalizes to
    [fd]. *)
Lemma fetch_crates_shape (fuel : nat) from_date fd w :
  datetime_to_utc from_date = inr fd →
  ∃ r tr (k : nat) processed rest,
    __fetch_crates fuel from_date w = (r, tr, w) ∧
    listing_requests tr = CratesClient.page_request crates_path <$> CratesClient.page_numbers k ∧
    concat (page_entries crates_path <$> CratesClient.page_numbers k) = processed ++ rest ∧
    Forall2 (λ e record, composite_record e = inr record)
            (filter (passes fd) processed) (emitted tr) ∧
    (r = Val tt → rest = []) ∧
    (∀ req y, Request req ∈ tr → fetched req = inl y →
              r = Exn y ∧ last tr = Some (Request req)).
Proof.
  intros Hfd. unfold __fetch_crates.
  rewrite (run_bind_lift _ _ _ fd Hfd).
  destruct (for_pages_shape fd crates_path fuel 1 (CratesClient.crates 1) w)
    as (r & tr & k & processed & rest & Hrun & Hlist & Hconcat & Hrec & Hres & Hfail).
  { by left. }
  rewrite pages_from_numbers in Hlist, Hconcat.
  by exists r, tr, k, processed, rest.
Qed.


(** C3. Whatever the run: when a request that was sent failed (the
    transport raised, or the answer did not decode), the loop body that
    sent it raised that very exception and yielded nothing; a loop body
    that raises for any reason has yielded nothing, and the loop over the
    entries raises with it; the whole generator raised the exception of
    the failed request too, and that request is the last thing that
    happened.  Every record that was yielded has all four extra keys. *)
Theorem sub_fetch_failure_propagates (fuel : nat) (from_date : value) (fd : datetime)
    (e : value) w (req : request pyfloat) (y : exn) :
  fetched req = inl y →
  (Request req ∈ (crate_body fd e w).1.2 →
     (crate_body fd e w).1.1 = Exn y ∧ emitted (crate_body fd e w).1.2 = []) ∧
  (∀ x es, (crate_body fd e w).1.1 = Exn x →
     emitted (crate_body fd e w).1.2 = [] ∧
     for_each (crate_body fd) (e :: es) w = crate_body fd e w) ∧
  (Request req ∈ (__fetch_crates fuel from_date w).1.2 →
     (__fetch_crates fuel from_date w).1.1 = Exn y ∧
     last (__fetch_crates fuel from_date w).1.2 = Some (Request req)) ∧
  Forall complete (emitted (__fetch_crates fuel from_date w).1.2).
Proof.
  intros Hy. split_and!.
  - destruct (crate_body_shape fd e w)
      as [[Hbody Hpass] | [(x & reqs & Hbody & _ & _ & _ & Hlast)
                          | (crate_id & record & Hbody & _ & _ & _ & Hok)]];
      rewrite Hbody; cbn [fst snd].
    + intros Hin. by apply elem_of_nil in Hin.
    + intros Hin%elem_of_trace_requests.
      destruct (Hlast req y Hin Hy) as [-> _]. by rewrite emitted_requests.
    + intros [Hin | Hin]%elem_of_app.
      * apply elem_of_trace_requests, Hok in Hin as [text Htext]. congruence.
      * apply list_elem_of_singleton in Hin. discriminate.
  - intros x es. cbn [for_each].
    destruct (crate_body_shape fd e w)
      as [[Hbody Hpass] | [(x' & reqs & Hbody & _)
                          | (crate_id & record & Hbody & _)]];
      rewrite Hbody; cbn [fst snd]; intros [= <-].
    split; [apply emitted_requests |].
    by apply run_bind_exn.
  - destruct (datetime_to_utc from_date) as [x | fd'] eqn:Hfd.
    + unfold __fetch_crates. rewrite (run_bind_lift_exn _ _ _ x Hfd). cbn [fst snd].
      intros Hin. by apply elem_of_nil in Hin.
    + destruct (fetch_crates_shape fuel from_date fd' w Hfd)
        as (r & tr & k & processed & rest & -> & _ & _ & _ & _ & Hfail).
      cbn [fst snd]. intros Hin. by apply Hfail.
  - destruct (datetime_to_utc from_date) as [x | fd'] eqn:Hfd.
    + unfold __fetch_crates. rewrite (run_bind_lift_exn _ _ _ x Hfd). constructor.
    + destruct (fetch_crates_shape fuel from_date fd' w Hfd)
        as (r & tr & k & processed & rest & -> & _ & _ & Hrec & _ & _).
      cbn [fst snd]. remember (emitted tr) as records eqn:Heq. clear Heq.
      induction Hrec as [| e' record es records' Hcomp _ IH]; constructor; [| done].
      by eapply composite_record_complete.
Qed.

(** C5, as amended. Every record yielded by a crates fetch whose watermark
    normalizes to [fd] is the composite record of an entry listed on some
    page whose own [updated_at] is at or after [fd].  (The [updated_at]
    inside the record comes from the detail of the crate and is not
    compared with the watermark.) *)
Theorem emitted_for_recent_entries (fuel : nat) (from_date : value) (fd : datetime) w
    (record : value) :
  datetime_to_utc from_date = inr fd →
  record ∈ emitted (__fetch_crates fuel from_date w).1.2 →
  ∃ (n : Z) (e : value) (t : datetime),
    1 ≤ n ∧
    e ∈ page_entries crates_path n ∧
    updated_at e = inr t ∧
    dt_instant fd ≤ dt_instant t ∧
    composite_record e = inr record.
Proof.
  intros Hfd.
  destruct (fetch_crates_shape fuel from_date fd w Hfd)
    as (r & tr & k & processed & rest & -> & _ & Hconcat & Hrec & _ & _).
  cbn [fst snd]. intros Hin.
  apply list_elem_of_lookup in Hin as [i Hi].
  destruct (Forall2_lookup_r _ _ _ _ _ Hrec Hi) as (e & He & Hcomp).
  apply list_elem_of_lookup_2, list_elem_of_filter in He as [Hpass He].
  apply Is_true_true, passes_inv in Hpass as (t & Ht & Hlt).
  assert (e ∈ concat (page_entries crates_path <$> CratesClient.page_numbers k)) as Hlisted
    by (rewrite Hconcat; apply elem_of_app; by left).
  apply elem_of_concat in Hlisted as (es & Hes & Hin).
  apply list_elem_of_fmap in Hes as (n & -> & Hn).
  exists n, e, t. split_and!; try done.
  - apply list_elem_of_fmap in Hn as (j & -> & Hj). apply elem_of_seq in Hj. lia.
  - by apply dt_lt_false_instant.
Qed.


End Aggregator.

Section Demo.

Import Crates.
#[local] Existing Instance Mock.demo_env.




(** The listing is [serde], [old], [tokio] on two pages; [old] is filtered
    out, and the records come out in the order [serde], [tokio]. *)
Example aggregator_demo :
  (__fetch_crates 3 Mock.watermark 0).1.1 = Val tt ∧
  emitted (__fetch_crates 3 Mock.watermark 0).1.2 =
    [ Mock.composite "serde" "2021-06-01T00:00:00+00:00";
      Mock.composite "tokio" "2022-03-01T00:00:00+00:00" ] ∧
  req_url <$> requests (__fetch_crates 3 Mock.watermark 0).1.2 =
    [ "https://crates.io/api/v1/crates";
      "https://crates.io/api/v1/crates/serde";
      "https://crates.io/api/v1/crates/serde/owner_team";
      "https://crates.io/api/v1/crates/serde/owner_user";
      "https://crates.io/api/v1/crates/serde/downloads";
      "https://crates.io/api/v1/crates/serde/versions";
      "https://crates.io/api/v1/crates";
      "https://crates.io/api/v1/crates/tokio";
      "https://crates.io/api/v1/crates/tokio/owner_team";
      "https://crates.io/api/v1/crates/tokio/owner_user";
      "https://crates.io/api/v1/crates/tokio/downloads";
      "https://crates.io/api/v1/crates/tokio/versions" ].
Proof. vm_compute. repeat split. Qed.

Lemma emitted_for_recent_entries_witness :
  ∃ (n : Z) (e : value) (t : datetime),
    1 ≤ n ∧
    e ∈ page_entries crates_path n ∧
    updated_at e = inr t ∧
    dt_instant (Mock.utc 1420070400) ≤ dt_instant t ∧
    composite_record e = inr (Mock.composite "tokio" "2022-03-01T00:00:00+00:00").
Proof.
  apply (emitted_for_recent_entries (H := Mock.demo_env) 3 Mock.watermark
           (Mock.utc 1420070400) 0).
  - vm_compute. reflexivity.
  - vm_compute. right. left.
Defined.

End Demo.

Section StaleDetail.

Import Crates.
#[local] Existing Instance Mock.stale_detail_env.

(** With [Mock.stale_detail] the one record that is yielded carries an
    [updated_at] of 2010, strictly before the watermark of 2015. *)
Lemma stale_record_is_emitted :
  datetime_to_utc Mock.watermark = inr (Mock.utc 1420070400) ∧
  emitted (__fetch_crates 3 Mock.watermark 0).1.2 =
    [Mock.composite "serde" "2010-01-01T00:00:00+00:00"] ∧
  updated_at (Mock.composite "serde" "2010-01-01T00:00:00+00:00") =
    inr (Mock.utc 1262304000) ∧
  dt_lt (Mock.utc 1262304000) (Mock.utc 1420070400) = inr true ∧
  ¬ (dt_instant (Mock.utc 1420070400) ≤ dt_instant (Mock.utc 1262304000)).
Proof.
  split; [vm_compute; reflexivity |].
  split; [vm_compute; reflexivity |].
  split; [vm_compute; reflexivity |].
  split; [vm_compute; reflexivity |].
  vm_compute. intros Hle. by apply Hle.
Qed.

End StaleDetail.

Section VersionsDown.

Import Crates.
#[local] Existing Instance Mock.versions_down_env.

Lemma sub_fetch_failure_propagates_witness :
  (Request (attribute_request (PStr "serde") "versions")
     ∈ (crate_body (Mock.utc 1420070400) (Mock.entry "serde" "2021-06-01T00:00:00+00:00") 0).1.2 →
   (crate_body (Mock.utc 1420070400) (Mock.entry "serde" "2021-06-01T00:00:00+00:00") 0).1.1 =
     Exn (HTTPError "503 Service Unavailable") ∧
   emitted (crate_body (Mock.utc 1420070400)
              (Mock.entry "serde" "2021-06-01T00:00:00+00:00") 0).1.2 = []) ∧
  (∀ x es,
     (crate_body (Mock.utc 1420070400)
        (Mock.entry "serde" "2021-06-01T00:00:00+00:00") 0).1.1 = Exn x →
     emitted (crate_body (Mock.utc 1420070400)
                (Mock.entry "serde" "2021-06-01T00:00:00+00:00") 0).1.2 = [] ∧
     for_each (crate_body (Mock.utc 1420070400))
       (Mock.entry "serde" "2021-06-01T00:00:00+00:00" :: es) 0 =
       crate_body (Mock.utc 1420070400)
         (Mock.entry "serde" "2021-06-01T00:00:00+00:00") 0) ∧
  (Request (attribute_request (PStr "serde") "versions")
     ∈ (__fetch_crates 3 Mock.watermark 0).1.2 →
   (__fetch_crates 3 Mock.watermark 0).1.1 = Exn (HTTPError "503 Service Unavailable") ∧
   last (__fetch_crates 3 Mock.watermark 0).1.2 =
     Some (Request (attribute_request (PStr "serde") "versions"))) ∧
  Forall complete (emitted (__fetch_crates 3 Mock.watermark 0).1.2).
Proof.
  apply (sub_fetch_failure_propagates (H := Mock.versions_down_env) 3 Mock.watermark
           (Mock.utc 1420070400) (Mock.entry "serde" "2021-06-01T00:00:00+00:00") 0
           (attribute_request (PStr "serde") "versions")
           (HTTPError "503 Service Unavailable")).
  vm_compute. reflexivity.
Defined.

Example versions_down_demo :
  (__fetch_crates 3 Mock.watermark 0).1.1 = Exn (HTTPError "503 Service Unavailable") ∧
  emitted (__fetch_crates 3 Mock.watermark 0).1.2 = [] ∧
  req_url <$> requests (__fetch_crates 3 Mock.watermark 0).1.2 =
    [ "https://crates.io/api/v1/crates";
      "https://crates.io/api/v1/crates/serde";
      "https://crates.io/api/v1/crates/serde/owner_team";
      "https://crates.io/api/v1/crates/serde/owner_user";
      "https://crates.io/api/v1/crates/serde/downloads";
      "https://crates.io/api/v1/crates/serde/versions" ].
Proof. vm_compute. repeat split. Qed.

End VersionsDown.

End Aggregator.

(** ** More on the page fetcher: any starting page, failures, endless runs *)

Module Pagination.
Section Pagination.

Import CratesClient.
Context `{Externals}.

Lemma cumulative_from_nonneg path p k : 0 ≤ cumulative_from path p k.
Proof.
  induction k as [| k IH]; simpl; [lia |].
  destruct (page_crates_len path (p + Z.of_nat k)) as [n |] eqn:Hn; simpl; [| lia].
  apply PageFetcher.page_crates_len_nonneg in Hn. lia.
Qed.

Lemma drain_yield fuel g g' raw t w :
  next g w = (Val (Some raw, g'), t, w) →
  drain (S fuel) g w = after_pages [raw] t (drain fuel g' w).
Proof.
  intros Hn. cbn [drain]. rewrite (run_bind _ _ _ _ _ _ Hn). cbv beta iota.
  unfold bind, ret. destruct (drain fuel g' w) as [[[more | e |] t'] w']; simpl;
    by rewrite ?app_nil_r.
Qed.

Lemma after_pages_app pages1 pages2 t1 t2 rest :
  after_pages pages1 t1 (after_pages pages2 t2 rest) =
  after_pages (pages1 ++ pages2) (t1 ++ t2) rest.
Proof. destruct rest as [[[more | e |] t] w]; simpl; by rewrite ?app_assoc. Qed.

(** While the running count stays below the total, the generator goes
    from page to page: [n] more pages are requested and yielded, and the
    run goes on from there. *)
Lemma drain_advance path p T (n : nat) : ∀ (j fuel : nat) w,
  (∀ i, (j ≤ i < j + n)%nat → is_Some (page_crates_len path (p + Z.of_nat i))) →
  (∀ i, (j ≤ i < j + n)%nat → cumulative_from path p i < T) →
  drain (n + fuel) (GenYield path (cumulative_from path p j) (PInt T) (p + Z.of_nat j - 1)) w =
    after_pages (page_text path <$> pages_from (p + Z.of_nat j) n)
                ((λ q, Request (page_request path q)) <$> pages_from (p + Z.of_nat j) n)
                (drain fuel (GenYield path (cumulative_from path p (j + n)) (PInt T)
                               (p + Z.of_nat (j + n) - 1)) w).
Proof.
  induction n as [| n IH]; intros j fuel w Hpages Hbelow.
  - rewrite Nat.add_0_r. simpl.
    by destruct (drain fuel _ w) as [[[more | e |] t] w'].
  - destruct (Hpages j) as [k Hk]; [lia |].
    assert (cumulative_from path p j < T) as Hlt by (apply Hbelow; lia).
    pose proof (cumulative_from_nonneg path p j) as Hnn.
    change (S n + fuel)%nat with (S (n + fuel)).
    erewrite drain_yield; cycle 1.
    { cbn [next]. unfold py_int_ge.
      replace (T <=? cumulative_from path p j) with false
        by (symmetry; apply Z.leb_gt; lia).
      rewrite (run_bind_lift _ _ _ false eq_refl). cbv beta iota zeta.
      replace (p + Z.of_nat j - 1 + 1) with (p + Z.of_nat j) by lia.
      apply PageFetcher.turn_known; [exact Hk |].
      simpl. apply negb_true_iff, Z.eqb_neq. lia. }
    replace (GenYield path (cumulative_from path p j + k) (PInt T) (p + Z.of_nat j))
      with (GenYield path (cumulative_from path p (S j)) (PInt T) (p + Z.of_nat (S j) - 1))
      by (f_equal; [simpl cumulative_from; rewrite Hk; reflexivity | lia]).
    rewrite IH.
    + rewrite after_pages_app. cbn [pages_from fmap list_fmap].
      replace (p + Z.of_nat j + 1) with (p + Z.of_nat (S j)) by lia.
      replace (S j + n)%nat with (j + S n)%nat by lia. reflexivity.
    + intros i Hi. apply Hpages. lia.
    + intros i Hi. apply Hbelow. lia.
Qed.


(** The first turn, on a page that decodes and reports a total. *)
Lemma drain_start path p k total fuel w :
  page_crates_len path p = Some k →
  page_total path p = Some total →
  drain (S fuel) (__fetch_items path p) w =
    after_pages [page_text path p] [Request (page_request path p)]
                (drain fuel (GenYield path k total p) w).
Proof.
  intros Hk Htotal. apply drain_yield.
  apply (PageFetcher.turn_first path p k total w Hk Htotal).
Qed.

Lemma cumulative_from_one path p k :
  page_crates_len path p = Some k → cumulative_from path p 1 = k.
Proof.
  intros Hk. simpl. replace (p + Z.of_nat 0) with p by lia. rewrite Hk. simpl. lia.
Qed.


(** X1. The page fetcher started at any page [p]: when the [K] pages from [p]
    on decode, page [p] reports the total [T], and the count of the crates
    listed from page [p] on reaches [T] on the [K]-th of these pages and
    not before, it yields these [K] pages in order and ends.  The crates
    of the pages before [p] are not counted. *)
Theorem pagination_from_page path (p : Z) (K : nat) (T : Z) (fuel : nat) w :
  (1 ≤ K)%nat →
  (∀ i, (i < K)%nat → is_Some (page_crates_len path (p + Z.of_nat i))) →
  page_total path p = Some (PInt T) →
  T ≤ cumulative_from path p K →
  (∀ j, (1 ≤ j < K)%nat → cumulative_from path p j < T) →
  (K < fuel)%nat →
  drain fuel (__fetch_items path p) w =
    (Val (page_text path <$> pages_from p K),
     (λ q, Request (page_request path q)) <$> pages_from p K, w).
Proof.
  intros HK Hpages Htotal Hreach Hbelow Hfuel.
  destruct K as [| K]; [lia |].
  destruct (Hpages 0%nat) as [k Hk]; [lia |]. replace (p + Z.of_nat 0) with p in Hk by lia.
  replace fuel with (S (K + S (fuel - K - 2))) by lia.
  rewrite (drain_start path p k (PInt T) _ w Hk Htotal).
  rewrite <- (cumulative_from_one path p k Hk).
  replace p with (p + Z.of_nat 1 - 1) at 4 by lia.
  rewrite drain_advance.
  - rewrite after_pages_app.
    rewrite (PageFetcher.drain_stop _ _ w).
    + simpl. rewrite !app_nil_r. replace (p + Z.of_nat 1) with (p + 1) by lia. reflexivity.
    + cbn [next]. unfold py_int_ge.
      replace (T <=? cumulative_from path p (1 + K)) with true
        by (symmetry; apply Z.leb_le; exact Hreach).
      reflexivity.
  - intros i Hi. apply Hpages. lia.
  - intros i Hi. apply Hbelow. lia.
Qed.

(** X2. As long as the count of the crates listed from page [p] on stays below
    the total that page [p] reports, the page fetcher does not stop: with
    room for [fuel] turns it sends [fuel] requests, for the pages from [p]
    on, and is not finished. *)
Theorem keeps_requesting path (p : Z) (T : Z) (fuel : nat) w :
  (1 ≤ fuel)%nat →
  (∀ i, (i < fuel)%nat → is_Some (page_crates_len path (p + Z.of_nat i))) →
  page_total path p = Some (PInt T) →
  (∀ j, (1 ≤ j < fuel)%nat → cumulative_from path p j < T) →
  drain fuel (__fetch_items path p) w =
    (NoFuel, (λ q, Request (page_request path q)) <$> pages_from p fuel, w).
Proof.
  intros Hfuel Hpages Htotal Hbelow.
  destruct fuel as [| n]; [lia |].
  destruct (Hpages 0%nat) as [k Hk]; [lia |]. replace (p + Z.of_nat 0) with p in Hk by lia.
  replace (S n) with (S (n + 0)) at 1 by lia.
  rewrite (drain_start path p k (PInt T) _ w Hk Htotal).
  rewrite <- (cumulative_from_one path p k Hk).
  replace p with (p + Z.of_nat 1 - 1) at 4 by lia.
  rewrite drain_advance.
  - rewrite after_pages_app. simpl. rewrite !app_nil_r.
    replace (p + Z.of_nat 1) with (p + 1) by lia. reflexivity.
  - intros i Hi. apply Hpages. lia.
  - intros i Hi. apply Hbelow. lia.
Qed.


End Pagination.

Import CratesClient.

Section EmptyFirst.

#[local] Existing Instance Mock.empty_first_env.

(** In [Mock.empty_first] page 1 is empty and page 2 lists the one crate. *)
Lemma pagination_from_page_witness :
  drain 2 (__fetch_items Mock.listing_url 2) 0 =
    (Val (page_text Mock.listing_url <$> pages_from 2 1),
     (λ q, Request (page_request Mock.listing_url q)) <$> pages_from 2 1, 0).
Proof.
  apply (pagination_from_page (H := Mock.empty_first_env) Mock.listing_url 2 1 1 2 0).
  - lia.
  - intros i Hi. replace i with 0%nat by lia. vm_compute. by eexists.
  - vm_compute. reflexivity.
  - vm_compute. discriminate.
  - intros j Hj. lia.
  - lia.
Defined.

End EmptyFirst.

Section Demo.

#[local] Existing Instance Mock.demo_env.


End Demo.

Section Endless.

#[local] Existing Instance Mock.endless_env.

Lemma keeps_requesting_witness :
  drain 4 (__fetch_items Mock.listing_url 1) 0 =
    (NoFuel, (λ q, Request (page_request Mock.listing_url q)) <$> pages_from 1 4, 0).
Proof.
  apply (keeps_requesting (H := Mock.endless_env) Mock.listing_url 1 1 4 0).
  - lia.
  - intros i Hi. vm_compute. by eexists.
  - vm_compute. reflexivity.
  - intros j Hj. clear Hj. induction j as [| j IH]; [reflexivity |].
    simpl cumulative_from. change (page_crates_len Mock.listing_url (1 + Z.of_nat j)) with (Some 0).
    simpl. lia.
Defined.

End Endless.

End Pagination.

(** ** Runs of the aggregator that complete *)

Module Runs.
Section Runs.

Import Crates.
Context `{Externals}.

Lemma crate_body_ok from_date e w :
  entry_ok from_date e = true →
  (passes from_date e = false ∧ crate_body from_date e w = (Val tt, [], w)) ∨
  (passes from_date e = true ∧
   ∃ crate_id record,
     crate_body from_date e w =
       (Val tt, (Request <$> crate_requests crate_id) ++ [Emit record], w) ∧
     composite_record e = inr record).
Proof.
  intros Hok.
  destruct (Aggregator.crate_body_shape from_date e w)
    as [[Hbody Hpass] | [(x & reqs & Hbody & Hcomp & Hnot & _)
                        | (crate_id & record & Hbody & Hpass & _ & Hrec & _)]].
  - by left.
  - exfalso. unfold entry_ok, passes in *.
    destruct (let+ t := updated_at e in dt_lt t from_date) as [y | [|]]; try done.
    rewrite (Hcomp eq_refl) in Hok. done.
  - right. split; [done |]. by exists crate_id, record.
Qed.

(** The loop over entries that are all gone through without raising. *)
Lemma for_each_ok from_date (es : list value) w :
  Forall (λ e, entry_ok from_date e = true) es →
  ∃ tr,
    for_each (crate_body from_date) es w = (Val tt, tr, w) ∧
    Forall2 (λ e record, composite_record e = inr record)
            (filter (passes from_date) es) (emitted tr) ∧
    listing_requests tr = [] ∧
    length (requests tr) = (5 * length (emitted tr))%nat.
Proof.
  induction 1 as [| e es Hok _ (tr & Hrun & Hrec & Hlist & Hcount)].
  - exists []. by split_and!.
  - cbn [for_each].
    destruct (crate_body_ok from_date e w Hok)
      as [[Hpass Hbody] | [Hpass (crate_id & record & Hbody & Hcomp)]];
      rewrite (run_bind _ _ _ _ _ _ Hbody), Hrun; cbv beta iota.
    + exists tr. split_and!; try done.
      rewrite filter_cons_False; [done |]. rewrite Hpass. by intros [].
    + exists (((Request <$> crate_requests crate_id) ++ [Emit record]) ++ tr).
      split_and!; try done.
      * rewrite filter_cons_True by (rewrite Hpass; exact I).
        rewrite !Aggregator.emitted_app, Aggregator.emitted_requests. simpl.
        by constructor.
      * rewrite !Aggregator.requests_app, Aggregator.requests_fmap.
        rewrite !Aggregator.emitted_app, Aggregator.emitted_requests.
        rewrite !length_app, Hcount. simpl. lia.
Qed.

Lemma py_len_iter (v : value) k : py_len v = inr k → ∃ es, py_iter v = inr es.
Proof. destruct v; simpl; intros [= <-]; eauto. Qed.

(** The body of the page loop on a page that decodes and whose entries are
    all gone through without raising. *)
Lemma page_body_ok from_date path n k w :
  CratesClient.page_crates_len path n = Some k →
  Forall (λ e, entry_ok from_date e = true) (page_entries path n) →
  ∃ tr,
    page_body from_date (CratesClient.page_text path n) w = (Val tt, tr, w) ∧
    Forall2 (λ e record, composite_record e = inr record)
            (filter (passes from_date) (page_entries path n)) (emitted tr) ∧
    listing_requests tr = [] ∧
    length (requests tr) = (5 * length (emitted tr))%nat.
Proof.
  intros (content & crates & Hreq & Hjson & Hget & Hlen)%PageFetcher.page_crates_len_inv.
  destruct (py_len_iter crates k Hlen) as [es Hes].
  assert (page_entries path n = es) as ->.
  { unfold page_entries, listed. rewrite Hreq, Hjson. simpl. rewrite Hget. simpl.
    by rewrite Hes. }
  intros Hok. unfold page_body.
  rewrite (run_bind_lift _ _ _ _ Hjson), (run_bind_lift _ _ _ _ Hget),
    (run_bind_lift _ _ _ _ Hes).
  by apply for_each_ok.
Qed.

Lemma for_pages_yield from_date fuel g g' raw t t2 w :
  CratesClient.next g w = (Val (Some raw, g'), t, w) →
  page_body from_date raw w = (Val tt, t2, w) →
  for_pages (S fuel) from_date g w = after_trace (t ++ t2) (for_pages fuel from_date g' w).
Proof.
  intros Hn Hbody. cbn [for_pages].
  rewrite (run_bind _ _ _ _ _ _ Hn). cbv beta iota.
  rewrite (run_bind _ _ _ _ _ _ Hbody).
  destruct (for_pages fuel from_date g' w) as [[r t3] w']. simpl.
  by rewrite app_assoc.
Qed.

Lemma for_pages_stop from_date fuel g w :
  CratesClient.next g w = (Val (None, CratesClient.GenDone), [], w) →
  for_pages (S fuel) from_date g w = (Val tt, [], w).
Proof. intros Hn. cbn [for_pages]. by rewrite (run_bind _ _ _ _ _ _ Hn). Qed.

Lemma after_trace_app {A} t1 t2 (rest : res A * list (event pyfloat) * world) :
  after_trace t1 (after_trace t2 rest) = after_trace (t1 ++ t2) rest.
Proof. destruct rest as [[r t] w]. simpl. by rewrite app_assoc. Qed.

(** Resumed below the total, the generator yields the next page. *)
Lemma next_below path p T (j : nat) k w :
  CratesClient.page_crates_len path (p + Z.of_nat j) = Some k →
  CratesClient.cumulative_from path p j < T →
  CratesClient.next
    (CratesClient.GenYield path (CratesClient.cumulative_from path p j) (PInt T)
       (p + Z.of_nat j - 1)) w =
    (Val (Some (CratesClient.page_text path (p + Z.of_nat j)),
          CratesClient.GenYield path (CratesClient.cumulative_from path p (S j)) (PInt T)
            (p + Z.of_nat (S j) - 1)),
     [Request (CratesClient.page_request path (p + Z.of_nat j))], w).
Proof.
  intros Hk Hlt.
  pose proof (Pagination.cumulative_from_nonneg path p j) as Hnn.
  cbn [CratesClient.next]. unfold py_int_ge.
  replace (T <=? CratesClient.cumulative_from path p j) with false
    by (symmetry; apply Z.leb_gt; lia).
  rewrite (run_bind_lift _ _ _ false eq_refl). cbv beta iota zeta.
  replace (p + Z.of_nat j - 1 + 1) with (p + Z.of_nat j) by lia.
  replace (p + Z.of_nat (S j) - 1) with (p + Z.of_nat j) by lia.
  replace (CratesClient.cumulative_from path p (S j))
    with (CratesClient.cumulative_from path p j + k)
    by (simpl CratesClient.cumulative_from; rewrite Hk; reflexivity).
  apply PageFetcher.turn_known; [exact Hk |].
  simpl. apply negb_true_iff, Z.eqb_neq. lia.
Qed.

(** The page loop over [n] more pages that decode and whose entries are
    all gone through, while the running count stays below the total. *)
Lemma for_pages_advance from_date path p T (n : nat) : ∀ (j fuel : nat) w,
  (∀ i, (j ≤ i < j + n)%nat →
        is_Some (CratesClient.page_crates_len path (p + Z.of_nat i))) →
  (∀ i, (j ≤ i < j + n)%nat → CratesClient.cumulative_from path p i < T) →
  (∀ i, (j ≤ i < j + n)%nat →
        Forall (λ e, entry_ok from_date e = true) (page_entries path (p + Z.of_nat i))) →
  ∃ tr,
    for_pages (n + fuel) from_date
      (CratesClient.GenYield path (CratesClient.cumulative_from path p j) (PInt T)
         (p + Z.of_nat j - 1)) w =
      after_trace tr
        (for_pages fuel from_date
           (CratesClient.GenYield path (CratesClient.cumulative_from path p (j + n)) (PInt T)
              (p + Z.of_nat (j + n) - 1)) w) ∧
    listing_requests tr =
      CratesClient.page_request path <$> CratesClient.pages_from (p + Z.of_nat j) n ∧
    Forall2 (λ e record, composite_record e = inr record)
            (filter (passes from_date)
               (concat (page_entries path <$> CratesClient.pages_from (p + Z.of_nat j) n)))
            (emitted tr) ∧
    length (requests tr) = (n + 5 * length (emitted tr))%nat.
Proof.
  induction n as [| n IH]; intros j fuel w Hpages Hbelow Hok.
  - exists []. rewrite Nat.add_0_r. change (0 + fuel)%nat with fuel.
    split_and!; try done.
    by destruct (for_pages fuel _ _ w) as [[r t] w'].
  - destruct (Hpages j) as [k Hk]; [lia |].
    assert (CratesClient.cumulative_from path p j < T) as Hlt by (apply Hbelow; lia).
    destruct (page_body_ok from_date path (p + Z.of_nat j) k w Hk)
      as (t2 & Hbody & Hrec2 & Hlist2 & Hcount2); [apply Hok; lia |].
    destruct (IH (S j) fuel w) as (tr & Hrun & Hlist & Hrec & Hcount).
    { intros i Hi. apply Hpages. lia. }
    { intros i Hi. apply Hbelow. lia. }
    { intros i Hi. apply Hok. lia. }
    exists (([Request (CratesClient.page_request path (p + Z.of_nat j))] ++ t2) ++ tr).
    split_and!.
    + change (S n + fuel)%nat with (S (n + fuel)).
      rewrite (for_pages_yield from_date _ _ _ _ _ _ w (next_below path p T j k w Hk Hlt) Hbody).
      rewrite Hrun, after_trace_app.
      by replace (S j + n)%nat with (j + S n)%nat by lia.
    + rewrite !Aggregator.listing_requests_app, Hlist2, Hlist.
      cbn [CratesClient.pages_from fmap list_fmap].
      replace (p + Z.of_nat j + 1) with (p + Z.of_nat (S j)) by lia. reflexivity.
    + cbn [CratesClient.pages_from fmap list_fmap concat].
      replace (p + Z.of_nat j + 1) with (p + Z.of_nat (S j)) by lia.
      rewrite filter_app, !Aggregator.emitted_app. simpl.
      by apply Forall2_app.
    + rewrite !Aggregator.requests_app, !Aggregator.emitted_app, !length_app.
      rewrite Hcount2, Hcount. simpl. lia.
Qed.

(** The whole run over the pages [1 .. K] of a registry whose pages decode
    and whose entries are all gone through. *)
Lemma fetch_crates_complete (fuel : nat) from_date fd (K : nat) (T : Z) w :
  datetime_to_utc from_date = inr fd →
  (1 ≤ K)%nat →
  (∀ i, (i < K)%nat →
        is_Some (CratesClient.page_crates_len crates_path (1 + Z.of_nat i))) →
  CratesClient.page_total crates_path 1 = Some (PInt T) →
  T ≤ CratesClient.cumulative_from crates_path 1 K →
  (∀ j, (1 ≤ j < K)%nat → CratesClient.cumulative_from crates_path 1 j < T) →
  (∀ i, (i < K)%nat →
        Forall (λ e, entry_ok fd e = true) (page_entries crates_path (1 + Z.of_nat i))) →
  (K < fuel)%nat →
  ∃ tr,
    __fetch_crates fuel from_date w = (Val tt, tr, w) ∧
    listing_requests tr =
      CratesClient.page_request crates_path <$> CratesClient.pages_from 1 K ∧
    Forall2 (λ e record, composite_record e = inr record)
            (filter (passes fd)
               (concat (page_entries crates_path <$> CratesClient.pages_from 1 K)))
            (emitted tr) ∧
    length (requests tr) = (K + 5 * length (emitted tr))%nat.
Proof.
  intros Hfd HK Hpages Htotal Hreach Hbelow Hok Hfuel.
  destruct K as [| K]; [lia |].
  destruct (Hpages 0%nat) as [k Hk]; [lia |].
  replace (1 + Z.of_nat 0) with 1 in Hk by lia.
  destruct (page_body_ok fd crates_path 1 k w Hk) as (t1 & Hbody & Hrec1 & Hlist1 & Hcount1).
  { replace 1 with (1 + Z.of_nat 0) at 1 by lia. apply Hok. lia. }
  destruct (for_pages_advance fd crates_path 1 T K 1 (S (fuel - K - 2)) w)
    as (tr & Hrun & Hlist & Hrec & Hcount).
  { intros i Hi. apply Hpages. lia. }
  { intros i Hi. apply Hbelow. lia. }
  { intros i Hi. apply Hok. lia. }
  exists (([Request (CratesClient.page_request crates_path 1)] ++ t1) ++ tr).
  split_and!.
  - unfold __fetch_crates. rewrite (run_bind_lift _ _ _ fd Hfd).
    replace fuel with (S (K + S (fuel - K - 2))) at 1 by lia.
    assert (CratesClient.next (CratesClient.crates 1) w =
              (Val (Some (CratesClient.page_text crates_path 1),
                    CratesClient.GenYield crates_path k (PInt T) 1),
               [Request (CratesClient.page_request crates_path 1)], w)) as Hfirst
      by apply (PageFetcher.turn_first crates_path 1 k (PInt T) w Hk Htotal).
    rewrite (for_pages_yield fd _ _ _ _ _ _ w Hfirst Hbody).
    replace (CratesClient.GenYield crates_path k (PInt T) 1)
      with (CratesClient.GenYield crates_path
              (CratesClient.cumulative_from crates_path 1 1) (PInt T) (1 + Z.of_nat 1 - 1))
      by (rewrite (Pagination.cumulative_from_one crates_path 1 k Hk); f_equal; lia).
    rewrite Hrun, after_trace_app.
    rewrite for_pages_stop.
    + simpl. by rewrite app_nil_r.
    + cbn [CratesClient.next]. unfold py_int_ge.
      replace (T <=? CratesClient.cumulative_from crates_path 1 (1 + K)) with true
        by (symmetry; apply Z.leb_le; exact Hreach).
      reflexivity.
  - rewrite !Aggregator.listing_requests_app, Hlist1, Hlist. reflexivity.
  - cbn [CratesClient.pages_from fmap list_fmap concat].
    rewrite filter_app, !Aggregator.emitted_app. simpl. by apply Forall2_app.
  - rewrite !Aggregator.requests_app, !Aggregator.emitted_app, !length_app.
    rewrite Hcount1, Hcount. simpl. lia.
Qed.

Lemma cumulative_from_first path k :
  CratesClient.cumulative_from path 1 k = CratesClient.cumulative path k.
Proof.
  induction k as [| k IH]; [done |].
  simpl CratesClient.cumulative_from. simpl CratesClient.cumulative. rewrite IH.
  by replace (1 + Z.of_nat k) with (Z.of_nat (S k)) by lia.
Qed.

(** A later watermark lets an entry through only if the earlier one does,
    and goes through every entry the earlier one goes through. *)
Lemma entry_ok_later fd fd' e :
  dt_aware fd → dt_aware fd' → dt_instant fd ≤ dt_instant fd' →
  entry_ok fd e = true →
  entry_ok fd' e = true ∧ (passes fd' e = true → passes fd e = true).
Proof.
  intros [o Ho] [o' Ho'] Hle. unfold entry_ok, passes, sum_bind.
  destruct (updated_at e) as [x | t]; [done |].
  unfold dt_lt, dt_instant in *. rewrite Ho, Ho' in *. simpl in Hle.
  destruct (dt_utcoffset t) as [ot |]; [| done].
  destruct (dt_wall t - ot <? dt_wall fd - o) eqn:Hlt.
  - apply Z.ltb_lt in Hlt. intros _.
    replace (dt_wall t - ot <? dt_wall fd' - o') with true
      by (symmetry; apply Z.ltb_lt; lia).
    done.
  - intros Hcomp. split; [| done].
    by destruct (dt_wall t - ot <? dt_wall fd' - o').
Qed.

Lemma emitted_sublist fd fd' (es : list value) :
  ∀ l l',
    Forall (λ e, passes fd' e = true → passes fd e = true) es →
    Forall2 (λ e record, composite_record e = inr record) (filter (passes fd) es) l →
    Forall2 (λ e record, composite_record e = inr record) (filter (passes fd') es) l' →
    l' `sublist_of` l.
Proof.
  induction es as [| e es IH]; intros l l' Himp Hl Hl'.
  - apply Forall2_nil_inv_l in Hl' as ->. apply sublist_nil_l.
  - apply Forall_cons in Himp as [He Himp].
    destruct (passes fd' e) eqn:Hp'.
    + rewrite filter_cons_True in Hl' by (rewrite Hp'; exact I).
      rewrite filter_cons_True in Hl by (rewrite (He eq_refl); exact I).
      apply Forall2_cons_inv_l in Hl as (r & l0 & Hr & Hl0 & ->).
      apply Forall2_cons_inv_l in Hl' as (r' & l0' & Hr' & Hl0' & ->).
      assert (r' = r) as -> by congruence.
      apply sublist_skip. by apply IH.
    + rewrite filter_cons_False in Hl' by (rewrite Hp'; by intros []).
      destruct (passes fd e) eqn:Hp.
      * rewrite filter_cons_True in Hl by (rewrite Hp; exact I).
        apply Forall2_cons_inv_l in Hl as (r & l0 & Hr & Hl0 & ->).
        apply sublist_cons. by apply IH.
      * rewrite filter_cons_False in Hl by (rewrite Hp; by intros []).
        by apply IH.
Qed.

Lemma all_ok fd (es : list value) :
  forallb (entry_ok fd) es = true → Forall (λ e, entry_ok fd e = true) es.
Proof.
  induction es as [| e es IH]; simpl; [constructor |].
  intros [He Hes]%andb_true_iff. constructor; [done | by apply IH].
Qed.

(** X4. On a registry whose pages [1 .. K] decode, with page 1 reporting the
    total [T] that the running count reaches on page [K] and not before,
    and whose listed entries are all gone through without raising under
    the watermark [fd]: the aggregator completes.  It has requested the
    pages [1 .. K] in order, has yielded, in listing order, the composite
    record of every listed entry that passes the filter, and has sent one
    request per page and five per record. *)
Theorem aggregator_completes (fuel : nat) (from_date : value) (fd : datetime)
    (K : nat) (T : Z) w :
  datetime_to_utc from_date = inr fd →
  (1 ≤ K)%nat →
  (∀ i, (1 ≤ i ≤ K)%nat → is_Some (CratesClient.page_crates_len crates_path (Z.of_nat i))) →
  CratesClient.page_total crates_path 1 = Some (PInt T) →
  T ≤ CratesClient.cumulative crates_path K →
  (∀ j, (1 ≤ j < K)%nat → CratesClient.cumulative crates_path j < T) →
  (∀ i, (1 ≤ i ≤ K)%nat →
        Forall (λ e, entry_ok fd e = true) (page_entries crates_path (Z.of_nat i))) →
  (K < fuel)%nat →
  ∃ tr,
    __fetch_crates fuel from_date w = (Val tt, tr, w) ∧
    listing_requests tr =
      CratesClient.page_request crates_path <$> CratesClient.page_numbers K ∧
    Forall2 (λ e record, composite_record e = inr record)
            (filter (passes fd)
               (concat (page_entries crates_path <$> CratesClient.page_numbers K)))
            (emitted tr) ∧
    length (requests tr) = (K + 5 * length (emitted tr))%nat.
Proof.
  intros Hfd HK Hpages Htotal Hreach Hbelow Hok Hfuel.
  rewrite <- Aggregator.pages_from_numbers.
  apply (fetch_crates_complete fuel from_date fd K T w); try done.
  - intros i Hi. replace (1 + Z.of_nat i) with (Z.of_nat (S i)) by lia. apply Hpages. lia.
  - by rewrite cumulative_from_first.
  - intros j Hj. rewrite cumulative_from_first. by apply Hbelow.
  - intros i Hi. replace (1 + Z.of_nat i) with (Z.of_nat (S i)) by lia. apply Hok. lia.
Qed.

(** X5. On such a registry, moving the watermark later only removes records:
    the run under a later aware watermark [fd'] completes as well, asks for
    the same pages, and yields a sublist of the records yielded under
    [fd]. *)
Theorem later_watermark_fewer_records (fuel : nat) (from_date from_date' : value)
    (fd fd' : datetime) (K : nat) (T : Z) w :
  datetime_to_utc from_date = inr fd →
  datetime_to_utc from_date' = inr fd' →
  dt_aware fd → dt_aware fd' → dt_instant fd ≤ dt_instant fd' →
  (1 ≤ K)%nat →
  (∀ i, (1 ≤ i ≤ K)%nat → is_Some (CratesClient.page_crates_len crates_path (Z.of_nat i))) →
  CratesClient.page_total crates_path 1 = Some (PInt T) →
  T ≤ CratesClient.cumulative crates_path K →
  (∀ j, (1 ≤ j < K)%nat → CratesClient.cumulative crates_path j < T) →
  (∀ i, (1 ≤ i ≤ K)%nat →
        Forall (λ e, entry_ok fd e = true) (page_entries crates_path (Z.of_nat i))) →
  (K < fuel)%nat →
  ∃ tr tr',
    __fetch_crates fuel from_date w = (Val tt, tr, w) ∧
    __fetch_crates fuel from_date' w = (Val tt, tr', w) ∧
    listing_requests tr' = listing_requests tr ∧
    emitted tr' `sublist_of` emitted tr.
Proof.
  intros Hfd Hfd' Ha Ha' Hle HK Hpages Htotal Hreach Hbelow Hok Hfuel.
  assert (∀ i, (i < K)%nat →
            is_Some (CratesClient.page_crates_len crates_path (1 + Z.of_nat i))) as Hpages1.
  { intros i Hi. replace (1 + Z.of_nat i) with (Z.of_nat (S i)) by lia. apply Hpages. lia. }
  assert (∀ i, (i < K)%nat →
            Forall (λ e, entry_ok fd e = true)
                   (page_entries crates_path (1 + Z.of_nat i))) as Hok1.
  { intros i Hi. replace (1 + Z.of_nat i) with (Z.of_nat (S i)) by lia. apply Hok. lia. }
  rewrite <- cumulative_from_first in Hreach.
  assert (∀ j, (1 ≤ j < K)%nat → CratesClient.cumulative_from crates_path 1 j < T) as Hbelow1.
  { intros j Hj. rewrite cumulative_from_first. by apply Hbelow. }
  destruct (fetch_crates_complete fuel from_date fd K T w)
    as (tr & Hrun & Hlist & Hrec & _); try done.
  destruct (fetch_crates_complete fuel from_date' fd' K T w)
    as (tr' & Hrun' & Hlist' & Hrec' & _); try done.
  { intros i Hi. eapply Forall_impl; [apply (Hok1 i Hi) |].
    intros e He. by apply (entry_ok_later fd fd' e). }
  exists tr, tr'. split_and!; try done.
  - by rewrite Hlist, Hlist'.
  - eapply (emitted_sublist fd fd'); [| exact Hrec | exact Hrec'].
    apply Forall_forall. intros e Hin.
    apply Aggregator.elem_of_concat in Hin as (es & Hes & Hin).
    apply list_elem_of_fmap in Hes as (n & -> & Hn).
    assert (∃ i, (i < K)%nat ∧ n = 1 + Z.of_nat i) as (i & Hi & ->).
    { clear -Hn. revert Hn. generalize 1. induction K as [| K IH]; intros q Hn.
      - by apply elem_of_nil in Hn.
      - simpl in Hn. apply elem_of_cons in Hn as [-> | Hn].
        + exists 0%nat. split; lia.
        + destruct (IH _ Hn) as (i & Hi & ->). exists (S i). split; lia. }
    pose proof (Hok1 i Hi) as Hall. rewrite Forall_forall in Hall.
    by apply (entry_ok_later fd fd' e Ha Ha' Hle (Hall e Hin)).
Qed.

End Runs.

Section Demo.

Import Crates.
#[local] Existing Instance Mock.demo_env.

Lemma demo_pages_decode (i : nat) :
  (1 ≤ i ≤ 2)%nat → is_Some (CratesClient.page_crates_len crates_path (Z.of_nat i)).
Proof.
  intros Hi. assert (i = 1 ∨ i = 2)%nat as [-> | ->] by lia; vm_compute; by eexists.
Qed.

Lemma demo_entries_ok (i : nat) :
  (1 ≤ i ≤ 2)%nat →
  Forall (λ e, entry_ok (Mock.utc 1420070400) e = true)
         (page_entries crates_path (Z.of_nat i)).
Proof.
  intros Hi. apply all_ok.
  assert (i = 1 ∨ i = 2)%nat as [-> | ->] by lia; vm_compute; reflexivity.
Qed.

Lemma aggregator_completes_witness :
  ∃ tr,
    __fetch_crates 3 Mock.watermark 0 = (Val tt, tr, 0) ∧
    listing_requests tr =
      CratesClient.page_request crates_path <$> CratesClient.page_numbers 2 ∧
    Forall2 (λ e record, composite_record e = inr record)
            (filter (passes (Mock.utc 1420070400))
               (concat (page_entries crates_path <$> CratesClient.page_numbers 2)))
            (emitted tr) ∧
    length (requests tr) = (2 + 5 * length (emitted tr))%nat.
Proof.
  apply (aggregator_completes (H := Mock.demo_env) 3 Mock.watermark
           (Mock.utc 1420070400) 2 3 0).
  - vm_compute. reflexivity.
  - lia.
  - apply demo_pages_decode.
  - vm_compute. reflexivity.
  - vm_compute. discriminate.
  - intros j Hj. replace j with 1%nat by lia. vm_compute. reflexivity.
  - apply demo_entries_ok.
  - lia.
Defined.

(** Under the watermark of 2015 the records of [serde] and [tokio] come
    out; under one of 2021-12-01 only that of [tokio]. *)
Lemma later_watermark_fewer_records_witness :
  ∃ tr tr',
    __fetch_crates 3 Mock.watermark 0 = (Val tt, tr, 0) ∧
    __fetch_crates 3 (PDatetime (Mock.utc 1638316800)) 0 = (Val tt, tr', 0) ∧
    listing_requests tr' = listing_requests tr ∧
    emitted tr' `sublist_of` emitted tr.
Proof.
  apply (later_watermark_fewer_records (H := Mock.demo_env) 3 Mock.watermark
           (PDatetime (Mock.utc 1638316800)) (Mock.utc 1420070400)
           (Mock.utc 1638316800) 2 3 0).
  - vm_compute. reflexivity.
  - vm_compute. reflexivity.
  - vm_compute. by eexists.
  - vm_compute. by eexists.
  - vm_compute. discriminate.
  - lia.
  - apply demo_pages_decode.
  - vm_compute. reflexivity.
  - vm_compute. discriminate.
  - intros j Hj. replace j with 1%nat by lia. vm_compute. reflexivity.
  - apply demo_entries_ok.
  - lia.
Defined.

Example later_watermark_demo :
  emitted (__fetch_crates 3 (PDatetime (Mock.utc 1638316800)) 0).1.2 =
    [ Mock.composite "tokio" "2022-03-01T00:00:00+00:00" ].
Proof. vm_compute. reflexivity. Qed.

End Demo.

End Runs.

(** ** The records that are yielded, and what they cost *)

Module Records.
Section Records.

Import Crates.
Context `{Externals}.

(** How a composite record is made up. *)
Lemma composite_record_inv e record :
  composite_record e = inr record →
  ∃ crate_id (d : gmap string value) team user downloads versions,
    py_getitem e "id" = inr crate_id ∧
    (let+ detail := fetched (crate_request crate_id) in py_getitem detail "crate")
      = inr (PDict d) ∧
    fetched (attribute_request crate_id "owner_team") = inr team ∧
    fetched (attribute_request crate_id "owner_user") = inr user ∧
    fetched (attribute_request crate_id "downloads") = inr downloads ∧
    fetched (attribute_request crate_id "versions") = inr versions ∧
    record = PDict (<["versions_data" := versions]>
                      (<["version_downloads_data" := downloads]>
                         (<["owner_user_data" := user]>
                            (<["owner_team_data" := team]> d)))).
Proof.
  unfold composite_record, sum_bind.
  destruct (py_getitem e "id") as [| crate_id] eqn:Hid; [done |].
  destruct (fetched (crate_request crate_id)) as [| detail] eqn:Hdetail; [done |].
  destruct (py_getitem detail "crate") as [| crate] eqn:Hcrate; [done |].
  destruct (fetched (attribute_request crate_id "owner_team")) as [| team] eqn:Hteam;
    [done |].
  destruct (py_setitem crate "owner_team_data" team) as [| crate0] eqn:Hset; [done |].
  apply Aggregator.py_setitem_inr in Hset as (d & -> & ->).
  destruct (fetched (attribute_request crate_id "owner_user")) as [| user] eqn:Huser;
    [done |].
  simpl.
  destruct (fetched (attribute_request crate_id "downloads")) as [| downloads]
    eqn:Hdownloads; [done |].
  destruct (fetched (attribute_request crate_id "versions")) as [| versions] eqn:Hversions;
    [done |].
  intros [= <-]. eexists crate_id, d, team, user, downloads, versions.
  rewrite Hdetail. split_and!; done.
Qed.

(** A record yielded by the loop body is the composite record of its
    entry. *)
Lemma emitted_by_body from_date e w record :
  record ∈ emitted (crate_body from_date e w).1.2 → composite_record e = inr record.
Proof.
  destruct (Aggregator.crate_body_shape from_date e w)
    as [[Hbody _] | [(x & reqs & Hbody & _)
                    | (crate_id & record' & Hbody & _ & _ & Hrec & _)]];
    rewrite Hbody; cbn [fst snd].
  - intros Hin. by apply elem_of_nil in Hin.
  - rewrite Aggregator.emitted_requests. intros Hin. by apply elem_of_nil in Hin.
  - rewrite Aggregator.emitted_app, Aggregator.emitted_requests. simpl.
    intros Hin%list_elem_of_singleton. by subst.
Qed.

(** X6. Every record the loop body yields is the [crate] object of the detail
    of the entry's id with the four extra keys set: each extra key holds
    the decoded answer to its sub-fetch (whatever the detail had under that
    key), and every other key is as in the detail. *)
Theorem emitted_record_keys (from_date : datetime) (e : value) w (record : value) :
  record ∈ emitted (crate_body from_date e w).1.2 →
  ∃ crate_id (d r : gmap string value),
    py_getitem e "id" = inr crate_id ∧
    (let+ detail := fetched (crate_request crate_id) in py_getitem detail "crate")
      = inr (PDict d) ∧
    record = PDict r ∧
    inr <$> r !! "owner_team_data" = Some (fetched (attribute_request crate_id "owner_team")) ∧
    inr <$> r !! "owner_user_data" = Some (fetched (attribute_request crate_id "owner_user")) ∧
    inr <$> r !! "version_downloads_data"
      = Some (fetched (attribute_request crate_id "downloads")) ∧
    inr <$> r !! "versions_data" = Some (fetched (attribute_request crate_id "versions")) ∧
    ∀ k, k ∉ EXTRA_KEYS → r !! k = d !! k.
Proof.
  intros Hin%emitted_by_body.
  apply composite_record_inv in Hin
    as (crate_id & d & team & user & downloads & versions
        & Hid & Hd & Hteam & Huser & Hdownloads & Hversions & ->).
  eexists crate_id, d, _. split_and!; try done.
  - rewrite Hteam. by simplify_map_eq.
  - rewrite Huser. by simplify_map_eq.
  - rewrite Hdownloads. by simplify_map_eq.
  - rewrite Hversions. by simplify_map_eq.
  - intros k Hk. unfold EXTRA_KEYS in Hk.
    rewrite !lookup_insert_ne; [done | | | |]; intros <-; apply Hk; set_solver.
Qed.

(** X7. The classifier does not see the extra keys: on a record the loop body
    yields, the category, the identifier and the update time are those of
    the [crate] object of the detail. *)
Theorem classifier_reads_the_detail (from_date : datetime) (e : value) w (record : value) :
  record ∈ emitted (crate_body from_date e w).1.2 →
  ∃ crate_id (d r : gmap string value),
    py_getitem e "id" = inr crate_id ∧
    (let+ detail := fetched (crate_request crate_id) in py_getitem detail "crate")
      = inr (PDict d) ∧
    record = PDict r ∧
    metadata_category r = metadata_category d ∧
    metadata_id r = metadata_id d ∧
    metadata_updated_on r = metadata_updated_on d.
Proof.
  intros Hin%emitted_by_body.
  apply composite_record_inv in Hin
    as (crate_id & d & team & user & downloads & versions
        & Hid & Hd & _ & _ & _ & _ & ->).
  eexists crate_id, d, _. split_and!; try done.
  - unfold metadata_category, py_contains. by rewrite !lookup_insert_ne.
  - unfold metadata_id, metadata_category, py_contains, py_getitem.
    by rewrite !lookup_insert_ne.
  - unfold metadata_updated_on, metadata_category, py_contains, py_getitem.
    by rewrite !lookup_insert_ne.
Qed.

(** X8. What is wrong with an entry is raised before anything is requested
    for it: a missing or unreadable [updated_at], a comparison that fails,
    and, for an entry that passes the filter, a missing [id]. *)
Theorem malformed_entry_raises (from_date : datetime) (e : value) w (x : exn) :
  (updated_at e = inl x → crate_body from_date e w = (Exn x, [], w)) ∧
  (∀ t, updated_at e = inr t → dt_lt t from_date = inl x →
        crate_body from_date e w = (Exn x, [], w)) ∧
  (passes from_date e = true → py_getitem e "id" = inl x →
     crate_body from_date e w = (Exn x, [], w)).
Proof.
  unfold passes, updated_at, crate_body, sum_bind. split_and!.
  - destruct (py_getitem e "updated_at") as [y | ts] eqn:Hts.
    + intros [= ->]. by rewrite (run_bind_lift_exn _ _ _ x eq_refl).
    + intros Hparse. rewrite (run_bind_lift _ _ _ ts eq_refl).
      by rewrite (run_bind_lift_exn _ _ _ x Hparse).
  - intros t Ht Hlt.
    destruct (py_getitem e "updated_at") as [y | ts] eqn:Hts; [done |].
    rewrite (run_bind_lift _ _ _ ts eq_refl), (run_bind_lift _ _ _ t Ht).
    by rewrite (run_bind_lift_exn _ _ _ x Hlt).
  - destruct (py_getitem e "updated_at") as [y | ts] eqn:Hts;
      [by intros Hp; simpl in Hp |].
    destruct (str_to_datetime ts) as [y | t] eqn:Ht; [by intros Hp; simpl in Hp |].
    destruct (dt_lt t from_date) as [y | [|]] eqn:Hlt;
      [by intros Hp; simpl in Hp | by intros Hp; simpl in Hp |].
    intros _ Hid.
    rewrite (run_bind_lift _ _ _ ts eq_refl), (run_bind_lift _ _ _ t Ht),
      (run_bind_lift _ _ _ false Hlt).
    cbv beta iota. by rewrite (run_bind_lift_exn _ _ _ x Hid).
Qed.

Lemma requests_request r (t : list (event pyfloat)) :
  requests (Request r :: t) = r :: requests t.
Proof. reflexivity. Qed.

Lemma requests_emit v (t : list (event pyfloat)) : requests (Emit v :: t) = requests t.
Proof. reflexivity. Qed.

Lemma emitted_request r (t : list (event pyfloat)) : emitted (Request r :: t) = emitted t.
Proof. reflexivity. Qed.

Lemma emitted_emit v (t : list (event pyfloat)) : emitted (Emit v :: t) = v :: emitted t.
Proof. reflexivity. Qed.

Lemma for_each_cost from_date (es : list value) : ∀ w tr w',
  for_each (crate_body from_date) es w = (Val tt, tr, w') →
  length (requests tr) = (5 * length (emitted tr))%nat ∧ listing_requests tr = [].
Proof.
  induction es as [| e es IH]; intros w tr w'.
  - intros [= <- _]. done.
  - cbn [for_each].
    destruct (Aggregator.crate_body_shape from_date e w)
      as [[Hbody _] | [(x & reqs & Hbody & _)
                      | (crate_id & record & Hbody & _)]].
    + rewrite (run_bind _ _ _ _ _ _ Hbody).
      destruct (for_each (crate_body from_date) es w) as [[r2 t2] w2] eqn:Hrest.
      intros [= -> <- _]. by apply (IH w t2 w2).
    + rewrite (run_bind_exn _ _ _ _ _ _ Hbody). done.
    + rewrite (run_bind _ _ _ _ _ _ Hbody).
      destruct (for_each (crate_body from_date) es w) as [[r2 t2] w2] eqn:Hrest.
      intros [= -> <- _]. destruct (IH w t2 w2 Hrest) as [Hcount Hlist].
      split.
      * rewrite !requests_request, !emitted_request, requests_emit, emitted_emit.
        simpl length. rewrite Hcount. lia.
      * unfold listing_requests in *.
        rewrite !requests_request, requests_emit.
        by rewrite !filter_cons_False by (by intros [? ?]).
Qed.

Lemma page_body_cost from_date raw w tr w' :
  page_body from_date raw w = (Val tt, tr, w') →
  length (requests tr) = (5 * length (emitted tr))%nat ∧ listing_requests tr = [].
Proof.
  unfold page_body.
  destruct (json_loads raw) as [x | crates];
    [by rewrite (run_bind_lift_exn _ _ _ x eq_refl)
    | rewrite (run_bind_lift _ _ _ crates eq_refl)].
  destruct (py_getitem crates "crates") as [x | listing];
    [by rewrite (run_bind_lift_exn _ _ _ x eq_refl)
    | rewrite (run_bind_lift _ _ _ listing eq_refl)].
  destruct (py_iter listing) as [x | entries];
    [by rewrite (run_bind_lift_exn _ _ _ x eq_refl)
    | rewrite (run_bind_lift _ _ _ entries eq_refl)].
  apply for_each_cost.
Qed.

Lemma for_pages_cost from_date path (fuel : nat) : ∀ q g w tr w',
  CratesClient.gen_at path q g →
  for_pages fuel from_date g w = (Val tt, tr, w') →
  length (requests tr) = (length (listing_requests tr) + 5 * length (emitted tr))%nat.
Proof.
  induction fuel as [| fuel IH]; intros q g w tr w' Hg; [done |].
  cbn [for_pages].
  destruct (Aggregator.next_shape path q g w Hg)
    as [Hstop | [[x Hx] | (parsed & total & Hturn)]].
  - rewrite (run_bind _ _ _ _ _ _ Hstop). by intros [= <- _].
  - by rewrite (run_bind_exn _ _ _ _ _ _ Hx).
  - destruct (Aggregator.turn_shape path parsed total q w)
      as (r1 & Hr1 & [(x & -> & _) | (raw & parsed' & total' & content & -> & _)]);
      rewrite <- Hturn in Hr1.
    + by rewrite (run_bind_exn _ _ _ _ _ _ Hr1).
    + rewrite (run_bind _ _ _ _ _ _ Hr1). cbv beta iota.
      destruct (page_body from_date raw w) as [[[[] | x |] t2] w2] eqn:Hbody.
      * rewrite (run_bind _ _ _ _ _ _ Hbody).
        destruct (for_pages fuel from_date _ w2) as [[r3 t3] w3] eqn:Hrest.
        intros [= -> <- _].
        destruct (page_body_cost _ _ _ _ _ Hbody) as [Hcount2 Hlist2].
        assert (length (requests t3)
                = (length (listing_requests t3) + 5 * length (emitted t3))%nat) as Hcount3.
        { eapply (IH (q + 1)); [| exact Hrest].
          right. exists parsed', total'. f_equal. lia. }
        unfold listing_requests in *.
        rewrite requests_request, emitted_request.
        rewrite Aggregator.requests_app, Aggregator.emitted_app.
        rewrite filter_cons_True by (by eexists).
        rewrite filter_app, Hlist2. simpl length.
        rewrite !length_app, Hcount2, Hcount3. lia.
      * by rewrite (run_bind_exn _ _ _ _ _ _ Hbody).
      * unfold bind. by rewrite Hbody.
Qed.

(** X9. Whenever the aggregator completes, it has sent one request per page
    of the listing and five per record it yielded, and no other. *)
Theorem request_cost (fuel : nat) (from_date : value) w tr w' :
  __fetch_crates fuel from_date w = (Val tt, tr, w') →
  length (requests tr) = (length (listing_requests tr) + 5 * length (emitted tr))%nat.
Proof.
  unfold __fetch_crates.
  destruct (datetime_to_utc from_date) as [x | fd] eqn:Hfd.
  - by rewrite (run_bind_lift_exn _ _ _ x eq_refl).
  - rewrite (run_bind_lift _ _ _ fd eq_refl).
    apply (for_pages_cost fd crates_path fuel 1). by left.
Qed.

End Records.

Section Demo.

Import Crates.
#[local] Existing Instance Mock.demo_env.

Lemma emitted_record_keys_witness :
  ∃ crate_id (d r : gmap string value),
    py_getitem Mock.serde "id" = inr crate_id ∧
    (let+ detail := fetched (crate_request crate_id) in py_getitem detail "crate")
      = inr (PDict d) ∧
    Mock.composite "serde" "2021-06-01T00:00:00+00:00" = PDict r ∧
    inr <$> r !! "owner_team_data" = Some (fetched (attribute_request crate_id "owner_team")) ∧
    inr <$> r !! "owner_user_data" = Some (fetched (attribute_request crate_id "owner_user")) ∧
    inr <$> r !! "version_downloads_data"
      = Some (fetched (attribute_request crate_id "downloads")) ∧
    inr <$> r !! "versions_data" = Some (fetched (attribute_request crate_id "versions")) ∧
    ∀ k, k ∉ EXTRA_KEYS → r !! k = d !! k.
Proof.
  apply (emitted_record_keys (H := Mock.demo_env) (Mock.utc 1420070400) Mock.serde 0).
  vm_compute. left.
Defined.

Lemma classifier_reads_the_detail_witness :
  ∃ crate_id (d r : gmap string value),
    py_getitem Mock.serde "id" = inr crate_id ∧
    (let+ detail := fetched (crate_request crate_id) in py_getitem detail "crate")
      = inr (PDict d) ∧
    Mock.composite "serde" "2021-06-01T00:00:00+00:00" = PDict r ∧
    metadata_category r = metadata_category d ∧
    metadata_id r = metadata_id d ∧
    metadata_updated_on r = metadata_updated_on d.
Proof.
  apply (classifier_reads_the_detail (H := Mock.demo_env) (Mock.utc 1420070400)
           Mock.serde 0).
  vm_compute. left.
Defined.

(** An entry without [updated_at] raises [KeyError]; so does an entry that
    passes the filter and has no [id]. *)
Lemma malformed_entry_raises_witness :
  crate_body (Mock.utc 1420070400) (PDict {[ "id" := PStr "serde" ]}) 0 =
    (Exn (KeyError "updated_at"), [], 0).
Proof.
  refine (proj1 (malformed_entry_raises (H := Mock.demo_env) (Mock.utc 1420070400)
                   (PDict {[ "id" := PStr "serde" ]}) 0 (KeyError "updated_at")) _).
  vm_compute. reflexivity.
Defined.

Example entry_without_id_demo :
  crate_body (Mock.utc 1420070400)
    (PDict {[ "updated_at" := PStr "2021-06-01T00:00:00+00:00" ]}) 0 =
    (Exn (KeyError "id"), [], 0) ∧
  crate_body (Mock.utc 1420070400)
    (PDict {[ "updated_at" := PStr "2010-01-01T00:00:00+00:00" ]}) 0 =
    (Val tt, [], 0).
Proof. vm_compute. split; reflexivity. Qed.

Lemma request_cost_witness :
  length (requests (__fetch_crates 3 Mock.watermark 0).1.2) =
    (length (listing_requests (__fetch_crates 3 Mock.watermark 0%Z).1.2)
     + 5 * length (emitted (__fetch_crates 3 Mock.watermark 0%Z).1.2))%nat.
Proof.
  apply (request_cost (H := Mock.demo_env) 3 Mock.watermark 0 _
           (__fetch_crates (H := Mock.demo_env) 3 Mock.watermark 0).2).
  vm_compute. reflexivity.
Defined.

End Demo.

End Records.

(** ** More on the summary fetcher and on summary items *)

Module SummaryItems.
Section SummaryItems.

Import Crates.
Context `{Externals}.

(** X10. When the summary cannot be fetched or decoded, the summary fetcher
    raises that exception without reading the clock; when it decodes to
    something that is not a dictionary, the clock is read and [TypeError]
    is raised.  In both cases one request was sent and nothing is
    yielded. *)
Theorem fetch_summary_failures w :
  (∀ x, fetched summary_request = inl x →
        __fetch_summary w = (Exn x, [Request summary_request], w)) ∧
  (∀ v, fetched summary_request = inr v → (∀ d, v ≠ PDict d) →
        __fetch_summary w =
          (Exn TypeError, [Request summary_request], (datetime_utcnow w).2)).
Proof.
  unfold __fetch_summary, CratesClient.summary, CratesClient.fetch, fetched, sum_bind.
  fold summary_request. split.
  - intros x Hx.
    destruct (http_fetch summary_request) as [y | raw] eqn:Hreq.
    + injection Hx as ->.
      by rewrite (run_bind_exn _ _ _ _ _ _ (run_send_exn _ _ w Hreq)).
    + rewrite (run_bind _ _ _ _ _ _ (run_send_ok _ _ w Hreq)).
      by rewrite (run_bind_lift_exn _ _ _ x Hx).
  - intros v Hv Hdict.
    destruct (http_fetch summary_request) as [y | raw] eqn:Hreq; [done |].
    rewrite (run_bind _ _ _ _ _ _ (run_send_ok _ _ w Hreq)).
    rewrite (run_bind_lift _ _ _ v Hv).
    unfold bind, utcnow. destruct (datetime_utcnow w) as [now w'].
    destruct v; try reflexivity. by destruct (Hdict d).
Qed.

(** X11. A summary payload that has the key [num_downloads] comes out as a
    summary item stamped by the clock, whatever [fetched_on] the payload
    had: its update time is the timestamp of the stamp read back by the
    date parser, and its identifier is [str] of that. *)
Theorem summary_record_classified raw (payload : gmap string value) w :
  http_fetch summary_request = inr raw →
  json_loads raw = inr (PDict payload) →
  is_Some (payload !! "num_downloads") →
  ∃ r : gmap string value,
    emitted (__fetch_summary w).1.2 = [PDict r] ∧
    r !! "fetched_on" = Some (PStr (py_str (PDatetime (datetime_utcnow w).1))) ∧
    metadata_category r = CATEGORY_SUMMARY ∧
    metadata_updated_on r =
      (let+ t := str_to_datetime (PStr (py_str (PDatetime (datetime_utcnow w).1))) in
       inr (PFloat (timestamp t))) ∧
    metadata_id r =
      (let+ t := str_to_datetime (PStr (py_str (PDatetime (datetime_utcnow w).1))) in
       inr (PStr (py_str (PFloat (timestamp t))))).
Proof.
  intros Hreq Hjson Hkey.
  rewrite (Summary.fetch_summary_run raw payload w Hreq Hjson).
  eexists. split; [reflexivity |].
  assert (is_Some ((<["fetched_on" :=
                      PStr (py_str (PDatetime (datetime_utcnow w).1))]> payload)
                     !! "num_downloads")) as Hkey'
    by (by rewrite lookup_insert_ne).
  pose proof (Classifier.category_summary _ Hkey') as Hcat.
  split_and!.
  - by rewrite lookup_insert_eq.
  - unfold metadata_category, py_contains. by rewrite bool_decide_eq_true_2.
  - unfold metadata_updated_on. rewrite Hcat. simpl. by rewrite lookup_insert_eq.
  - unfold metadata_id. rewrite Hcat. simpl. by rewrite lookup_insert_eq.
Qed.

(** X12. For a summary item the identifier is [str] of the update time, and
    [metadata_id] raises exactly what [metadata_updated_on] raises. *)
Theorem summary_id_is_str_of_update_time (item : gmap string value) :
  is_Some (item !! "num_downloads") →
  metadata_id item = (let+ updated_on := metadata_updated_on item in
                      inr (PStr (py_str updated_on))).
Proof.
  intros Hkey. pose proof (Classifier.category_summary item Hkey) as Hcat.
  unfold metadata_id, metadata_updated_on. rewrite Hcat. unfold sum_bind.
  destruct (py_getitem (PDict item) "fetched_on") as [x | ts]; [done |].
  by destruct (str_to_datetime ts).
Qed.

End SummaryItems.

Import Crates.

Section VersionsDown.

#[local] Existing Instance Mock.versions_down_env.

(** [Mock.versions_down] serves no summary. *)
Lemma fetch_summary_failures_witness :
  __fetch_summary 0 = (Exn (HTTPError "404 Not Found"), [Request summary_request], 0).
Proof.
  refine (proj1 (fetch_summary_failures (H := Mock.versions_down_env) 0)
                (HTTPError "404 Not Found") _).
  vm_compute. reflexivity.
Defined.

End VersionsDown.

Section Clocked.

#[local] Existing Instance Mock.clocked_env.

Lemma summary_record_classified_witness :
  ∃ r : gmap string value,
    emitted (__fetch_summary 0).1.2 = [PDict r] ∧
    r !! "fetched_on" = Some (PStr (py_str (PDatetime (datetime_utcnow 0).1))) ∧
    metadata_category r = CATEGORY_SUMMARY ∧
    metadata_updated_on r =
      (let+ t := str_to_datetime (PStr (py_str (PDatetime (datetime_utcnow 0).1))) in
       inr (PFloat (timestamp t))) ∧
    metadata_id r =
      (let+ t := str_to_datetime (PStr (py_str (PDatetime (datetime_utcnow 0).1))) in
       inr (PStr (py_str (PFloat (timestamp t))))).
Proof.
  apply (summary_record_classified (H := Mock.clocked_env) "summary"
           {[ "num_downloads" := PInt 5; "num_crates" := PInt 3 ]} 0).
  - vm_compute. reflexivity.
  - vm_compute. reflexivity.
  - vm_compute. by eexists.
Defined.

Example clocked_summary_demo :
  metadata_updated_on
    (<["fetched_on" := PStr "datetime:0"]>
       {[ "num_downloads" := PInt 5; "num_crates" := PInt 3 ]}) = inr (PFloat 0) ∧
  metadata_id
    (<["fetched_on" := PStr "datetime:0"]>
       {[ "num_downloads" := PInt 5; "num_crates" := PInt 3 ]}) = inr (PStr "0.0").
Proof. vm_compute. split; reflexivity. Qed.

End Clocked.

Section Demo.

#[local] Existing Instance Mock.demo_env.

Lemma summary_id_is_str_of_update_time_witness :
  metadata_id Mock.summary_item =
    (let+ updated_on := metadata_updated_on Mock.summary_item in
     inr (PStr (py_str updated_on))).
Proof.
  apply (summary_id_is_str_of_update_time (H := Mock.demo_env) Mock.summary_item).
  vm_compute. by eexists.
Defined.

End Demo.

End SummaryItems.
